(** * Converter: column-metadata CSV to metadata / GDPR YAML documents

    A shallow embedding of [converter.py] and the properties of the two
    documents it builds.

    Modelling conventions
    - A [pd.DataFrame] is the list of its rows, in index order.  The text
      columns hold strings or missing values: a cell is [option string],
      [None] being pandas' missing value (NaN), which is what an empty CSV
      field reads as.  A column in which no cell holds text is read as
      [float64], on which the [.str] accessor raises; any other text column
      is of dtype [object].  [GDPR_FLAG] is a boolean column.
    - Python dictionaries that end up in the YAML output are association
      lists in insertion order ([yaml.dump] is called with
      [sort_keys=False]); the serialisation to YAML text itself is the
      library's and is not modelled: [generate_metadata_yaml] and
      [generate_gdpr_yaml] return the structure handed to [yaml.dump].
    - Python exceptions are values of [exn]; fallible functions return
      [result].
    - [DataFrame.groupby] is modelled with pandas' defaults [sort=True] and
      [dropna=True]: rows with a missing key cell are left out, groups come
      in increasing key order, rows inside a group keep their input order.
    - [str.lower] is a library function: it is the parameter [lower] of the
      model, and every property is proved for whatever function it is.
    - Reading the CSV file and writing the two YAML files ([read_csv],
      [save_yaml], [main]) are modelled over a map from files to their
      texts, with the file a path names, the parsing of pandas, the
      printing of PyYAML and the permissions of the operating system as
      parameters. *)

From Stdlib Require Import Ascii.
From stdpp Require Import gmap strings list sorting.

(** * Python values, exceptions and dictionaries *)

#[warnings="-register-all"]
Inductive pyval : Type :=
  | PStr (s : string)
  | PBool (b : bool)
  | PInt (n : Z)
  | PNaN
  | PList (l : list pyval)
  | PDict (d : list (string * pyval)).

Inductive exn : Type :=
  | AttributeError
  | TypeError
  | IndexError
  | KeyError.

Inductive result (A : Type) : Type :=
  | Ok (a : A)
  | Raise (e : exn).
Arguments Ok {A} a.
Arguments Raise {A} e.

Module PyMonad.
Definition bind {A B} (m : result A) (k : A → result B) : result B :=
  match m with
  | Ok a => k a
  | Raise e => Raise e
  end.

Fixpoint for_each {A B} (f : A → result B) (l : list A) : result (list B) :=
  match l with
  | [] => Ok []
  | x :: l' => bind (f x) (λ y, bind (for_each f l') (λ ys, Ok (y :: ys)))
  end.

Fixpoint fold {A S} (step : S → A → result S) (s : S) (l : list A) : result S :=
  match l with
  | [] => Ok s
  | x :: l' => bind (step s x) (λ s', fold step s' l')
  end.
End PyMonad.

Notation "'let!' x ':=' m 'in' k" := (PyMonad.bind m (λ x, k))
  (at level 10, x pattern, m at level 100, k at level 200).

(** Lookup of a key in an insertion-ordered dictionary. *)
Fixpoint dict_get (k : string) (d : list (string * pyval)) : option pyval :=
  match d with
  | [] => None
  | (k', v) :: d' => if decide (k = k') then Some v else dict_get k d'
  end.

(** [v[k]] for a value that is expected to be a dictionary. *)
Definition item (k : string) (v : pyval) : option pyval :=
  match v with
  | PDict d => dict_get k d
  | _ => None
  end.

(** A data-frame cell as a Python value: a string, or NaN when missing. *)
Definition cell (c : option string) : pyval :=
  match c with
  | Some s => PStr s
  | None => PNaN
  end.

(** * Strings *)

(** [key in s] on strings: [key] occurs in [s] as a contiguous substring. *)
Fixpoint contains (key s : string) : bool :=
  String.prefix key s ||
  match s with
  | EmptyString => false
  | String _ s' => contains key s'
  end.

(** * Type mapper *)

Definition type_mapping : list (string * string) :=
  [("VARCHAR2", "string"); ("NUMBER", "decimal(38,0)"); ("DATE", "date")].

(** [next(iterator, default)] *)
Definition next {A} (it : list A) (default : A) : A :=
  match it with
  | x :: _ => x
  | [] => default
  end.

Definition map_data_type (data_type : string) : string :=
  next (snd <$> filter (λ kv, contains kv.1 data_type = true) type_mapping) "string".

(** * Rows and data frames *)

Record Row : Type := mkRow {
  table_name : option string;
  COLUMN_NAME : option string;
  DATA_TYPE : option string;
  DATA_FORMAT : option string;
  NULLABLE : option string;
  FILE_NAME : option string;
  DECIMAL_SEPARATOR : option string;
  FILE_TYPE : option string;
  GDPR_FLAG : bool
}.

Abbreviation DataFrame := (list Row).

Global Instance Row_eq_dec : EqDecision Row.
Proof. solve_decision. Defined.

(** * Ordering of group keys

    Python compares tuples lexicographically and strings by code point. *)

Definition lex_le {A B} (RA : relation A) (RB : relation B) : relation (A * B) :=
  λ p q, (p.1 ≠ q.1 ∧ RA p.1 q.1) ∨ (p.1 = q.1 ∧ RB p.2 q.2).

Global Instance lex_le_dec {A B} `{EqDecision A} (RA : relation A) (RB : relation B)
  `{!RelDecision RA, !RelDecision RB} : RelDecision (lex_le RA RB).
Proof. intros p q. unfold lex_le. apply _. Defined.

Abbreviation group_key := (string * string * string * string)%type.

Definition key_le : relation group_key :=
  lex_le (lex_le (lex_le String.le String.le) String.le) String.le.

Global Instance key_le_dec : RelDecision key_le.
Proof. unfold key_le. apply _. Defined.

(** * [DataFrame.groupby]

    pandas' defaults: [sort=True], [dropna=True]. *)

Section groupby.
Context {K : Type} `{EqDecision K} (R : relation K) `{!RelDecision R}.

(** The distinct keys of the frame in increasing order; rows whose key has
    a missing component do not contribute. *)
Definition group_keys (by_cols : Row → option K) (df : DataFrame) : list K :=
  merge_sort R (remove_dups (omap by_cols df)).

Definition get_group (by_cols : Row → option K) (df : DataFrame) (k : K) : DataFrame :=
  filter (λ row, by_cols row = Some k) df.

Definition groupby (by_cols : Row → option K) (df : DataFrame) : list (K * DataFrame) :=
  (λ k, (k, get_group by_cols df k)) <$> group_keys by_cols df.
End groupby.

(** [df.groupby(['FILE_NAME', 'DECIMAL_SEPARATOR', 'FILE_TYPE', 'table_name'])] *)
Definition by_file_and_table (row : Row) : option group_key :=
  file_name ← FILE_NAME row;
  decimal_separator ← DECIMAL_SEPARATOR row;
  file_type ← FILE_TYPE row;
  name ← table_name row;
  Some (file_name, decimal_separator, file_type, name).

(** * The converter

    [lower] stands for Python's [str.lower], a library function that is
    not part of the repository: the converter is modelled, and its
    properties are proved, for whatever function it is. *)

Section converter.
Variable lower : string → string.

(** * Table aggregator *)

(** The [lambda row: {...}] passed to [df.apply] in [process_table].
    [.lower()] on a missing column name and [key in data_type] on a missing
    data type raise. *)
Definition column_of_row (row : Row) : result pyval :=
  let! name := match COLUMN_NAME row with
               | Some s => Ok (lower s)
               | None => Raise AttributeError
               end in
  let! data_type := match DATA_TYPE row with
                    | Some s => Ok (map_data_type s)
                    | None => Raise TypeError
                    end in
  Ok (PDict ([("name", PStr name); ("data_type", PStr data_type)]
             ++ (if DATA_FORMAT row is Some _
                 then [("date_format", cell (DATA_FORMAT row))] else [])
             ++ (if decide (NULLABLE row = Some "Y")
                 then [("is_nullable", PBool true)] else []))).

Definition process_table (df : DataFrame) (source : pyval) : result pyval :=
  let! name := match df with
               | row :: _ => Ok (cell (table_name row))
               | [] => Raise IndexError
               end in
  let! columns := PyMonad.for_each column_of_row df in
  Ok (PDict [("name", name);
             ("source", source);
             ("columns", PList columns);
             ("primary_key", PList [PStr "unid"]);
             ("cdc_column", PStr "dml_flag");
             ("cdc_type", PStr "soft")]).

(** * Source aggregator *)

Definition source_key_of (file_name decimal_separator file_type : string) : string :=
  "source_" +:+ file_name +:+ "_" +:+ decimal_separator +:+ "_" +:+ file_type.

Definition source_data_of (file_name decimal_separator file_type : string) : pyval :=
  PDict [("load_type", PStr "delta");
         ("file_pattern", PStr file_name);
         ("partition_pattern", PStr "(\d+(?:\.\d+)?)_(?:\d+\D+)$");
         ("params", PDict [("decimal_separator", PStr decimal_separator);
                           ("format", PStr (lower file_type))])].

(** One iteration of the loop of [process_source]; the state is the pair of
    the local variables [tables] and [sources]. *)
Definition process_group (st : list pyval * gmap string pyval)
    (g : group_key * DataFrame) : result (list pyval * gmap string pyval) :=
  let '(tables, sources) := st in
  let '((file_name, decimal_separator, file_type, _), group) := g in
  let source_key := source_key_of file_name decimal_separator file_type in
  let sources :=
    if sources !! source_key is None
    then <[source_key := source_data_of file_name decimal_separator file_type]> sources
    else sources in
  let! source := match sources !! source_key with
                 | Some v => Ok v
                 | None => Raise KeyError
                 end in
  let! table_info := process_table group source in
  Ok (tables ++ [table_info], sources).

Definition process_source (df : DataFrame) : result (list pyval) :=
  let! st := PyMonad.fold process_group ([], ∅) (groupby key_le by_file_and_table df) in
  Ok st.1.

(** * Serializers (up to [yaml.dump]) *)

Definition generate_metadata_yaml (df : DataFrame) : result pyval :=
  let! tables := process_source df in
  Ok (PDict [("version", PInt 2); ("name", PStr "dwh"); ("tables", PList tables)]).

(** [df[df['GDPR_FLAG']]] *)
Definition gdpr_rows (df : DataFrame) : DataFrame :=
  filter (λ row, GDPR_FLAG row = true) df.

(** pandas reads a column in which no cell holds text as [float64], and a
    column with at least one string as [object]; a part of a column (the
    rows of a group, a selection of rows) keeps the dtype of the column. *)
Definition object_dtype (column : list (option string)) : bool :=
  bool_decide (Exists is_Some column).

(** [series.str.lower().tolist()] on a part of a column: the [.str]
    accessor raises AttributeError on a [float64] column; on an [object]
    column a missing value stays missing. *)
Definition str_lower_tolist (is_object : bool) (series : list (option string))
    : result (list pyval) :=
  if is_object then Ok ((λ c, cell (lower <$> c)) <$> series)
  else Raise AttributeError.

Definition gdpr_entry (is_object : bool) (g : string * DataFrame) : result pyval :=
  let! hash := str_lower_tolist is_object (COLUMN_NAME <$> gdpr_rows g.2) in
  Ok (PDict [("name", PStr g.1);
             ("personal_data", PDict [("hash", PList hash)])]).

Definition generate_gdpr_yaml (df : DataFrame) : result pyval :=
  let! gdpr :=
    PyMonad.for_each (gdpr_entry (object_dtype (COLUMN_NAME <$> df)))
      (filter (λ g, gdpr_rows g.2 ≠ []) (groupby String.le table_name df)) in
  Ok (PList gdpr).

(** * Files: [read_csv], [save_yaml], [main]

    The file system is the map from the readable files to their text.
    What is outside the repository is a parameter: [resolve] gives the file
    that a path names (two spellings of a path, or a link and its target,
    name one file), [parse] is [pd.read_csv(..., sep=';')] on the text of a
    file ([None] when pandas rejects it), [dump_block] and [dump] are
    [yaml.dump] with the options of [generate_metadata_yaml] and of
    [generate_gdpr_yaml], and [writable] tells for which files
    [open(path, 'w')] succeeds. *)

Inductive main_error : Type :=
  | ReadOSError
  | ParserError
  | WriteOSError
  | Uncaught (e : exn).

Section files.
Context {file : Type} `{Countable file}.
Variable resolve : string → file.
Variable parse : string → option DataFrame.
Variables dump_block dump : pyval → string.
Variable writable : file → bool.

Definition read_csv (fs : gmap file string) (file_path : string)
    : main_error + DataFrame :=
  match fs !! resolve file_path with
  | None => inl ReadOSError
  | Some text =>
      match parse text with
      | None => inl ParserError
      | Some df => inr df
      end
  end.

Definition save_yaml (fs : gmap file string) (file_path content : string)
    : main_error + gmap file string :=
  if writable (resolve file_path)
  then inr (<[resolve file_path := content]> fs)
  else inl WriteOSError.

(** [main] returns the file system it leaves behind and the exception it
    ends with, if any. *)
Definition main (fs : gmap file string)
    (csv_file_path metadata_yaml_path gdpr_yaml_path : string)
    : gmap file string * option main_error :=
  match read_csv fs csv_file_path with
  | inl err => (fs, Some err)
  | inr df =>
      match generate_metadata_yaml df with
      | Raise e => (fs, Some (Uncaught e))
      | Ok metadata =>
          match generate_gdpr_yaml df with
          | Raise e => (fs, Some (Uncaught e))
          | Ok gdpr =>
              let metadata_yaml := dump_block metadata in
              let gdpr_yaml := dump gdpr in
              match save_yaml fs metadata_yaml_path metadata_yaml with
              | inl err => (fs, Some err)
              | inr fs1 =>
                  match save_yaml fs1 gdpr_yaml_path gdpr_yaml with
                  | inl err => (fs1, Some err)
                  | inr fs2 => (fs2, None)
                  end
              end
          end
      end
  end.
End files.

(** * Notions used in the statements *)

(** The propositional reading of [key in s]. *)
Definition substring_of (key s : string) : Prop :=
  ∃ pre post, s = pre +:+ key +:+ post.

(** The source key and the descriptor that [process_group] derives from
    the key of a group. *)
Definition group_source_key (k : group_key) : string :=
  source_key_of k.1.1.1 k.1.1.2 k.1.2.

Definition group_source_data (k : group_key) : pyval :=
  source_data_of k.1.1.1 k.1.1.2 k.1.2.

(** [t] is the table built for group [g] with the descriptor that
    [sources] holds under the group's source key. *)
Definition built_from (sources : gmap string pyval)
    (g : group_key * DataFrame) (t : pyval) : Prop :=
  ∃ source, sources !! group_source_key g.1 = Some source ∧
            process_table g.2 source = Ok t.

(** Every cached descriptor was already there or was made for some group
    with that source key. *)
Definition cached_from (sources0 sources : gmap string pyval)
    (gs : list (group_key * DataFrame)) : Prop :=
  ∀ key v, sources !! key = Some v →
    sources0 !! key = Some v ∨
    ∃ g, g ∈ gs ∧ key = group_source_key g.1 ∧ v = group_source_data g.1.

(** The distinct non-missing [table_name] values of a frame. *)
Definition distinct_table_names (df : DataFrame) : list string :=
  remove_dups (omap table_name df).

(** The distinct grouping keys of a frame (rows with a missing key cell do
    not count). *)
Definition distinct_group_keys (df : DataFrame) : list group_key :=
  remove_dups (omap by_file_and_table df).

(** Every row that has a table name has a complete grouping key, and rows
    of one table agree on it. *)
Definition one_file_per_table (df : DataFrame) : Prop :=
  Forall (λ r1, Forall (λ r2,
    is_Some (table_name r1) → table_name r1 = table_name r2 →
    is_Some (by_file_and_table r1) ∧
    by_file_and_table r1 = by_file_and_table r2) df) df.

Global Instance one_file_per_table_dec df : Decision (one_file_per_table df).
Proof. unfold one_file_per_table. apply _. Defined.

(** The table names that get an entry, in document order. *)
Definition gdpr_names (df : DataFrame) : list string :=
  filter (λ name, gdpr_rows (get_group table_name df name) ≠ [])
         (group_keys String.le table_name df).

(** Every flagged row that has a table name also has a file name, a
    decimal separator and a file type. *)
Definition flagged_rows_keyed (df : DataFrame) : Prop :=
  Forall (λ row, GDPR_FLAG row = true → is_Some (table_name row) →
                 is_Some (by_file_and_table row)) df.

Global Instance flagged_rows_keyed_dec df : Decision (flagged_rows_keyed df).
Proof. unfold flagged_rows_keyed. apply _. Defined.

(** Every flagged row that has a table name shares that table name and its
    lowercased column name with a row that has all four key cells (itself,
    when it has them). *)
Definition flagged_rows_covered (df : DataFrame) : Prop :=
  ∀ row, row ∈ df → GDPR_FLAG row = true → is_Some (table_name row) →
    ∃ row', row' ∈ df ∧ is_Some (by_file_and_table row') ∧
            table_name row' = table_name row ∧
            lower <$> COLUMN_NAME row' = lower <$> COLUMN_NAME row.

(** The [.str] accessor is not refused: some cell of COLUMN_NAME holds
    text, or no flagged row has a table name. *)
Definition gdpr_columns_are_text (df : DataFrame) : Prop :=
  (∃ row, row ∈ df ∧ is_Some (COLUMN_NAME row)) ∨
  Forall (λ row, GDPR_FLAG row = true → table_name row = None) df.

(** The GDPR entry of a table, from its flagged rows. *)
Definition entry_of (name : string) (flagged : DataFrame) : pyval :=
  PDict [("name", PStr name);
         ("personal_data",
          PDict [("hash",
                  PList ((λ row, cell (lower <$> COLUMN_NAME row)) <$> flagged))])].

(** Every row that belongs to a group has a column name and a data type. *)
Definition named_and_typed (df : DataFrame) : Prop :=
  Forall (λ row, is_Some (by_file_and_table row) →
                 is_Some (COLUMN_NAME row) ∧ is_Some (DATA_TYPE row)) df.

(** The type names that [map_data_type] can return. *)
Definition canonical_types : list string := ["string"; "decimal(38,0)"; "date"].

(** The column definitions of a table definition. *)
Definition columns_of (t : pyval) : list pyval :=
  match item "columns" t with
  | Some (PList columns) => columns
  | _ => []
  end.

(** The items of a list value. *)
Definition elements (v : pyval) : list pyval :=
  match v with
  | PList l => l
  | _ => []
  end.

(** The column names under [personal_data.hash] of a GDPR entry. *)
Definition hash_of (entry : pyval) : list pyval :=
  match item "personal_data" entry ≫= item "hash" with
  | Some (PList hash) => hash
  | _ => []
  end.

(** The first key of the list whose source key is [key]. *)
Fixpoint first_with_source_key (key : string) (ks : list group_key) : option group_key :=
  match ks with
  | [] => None
  | k :: ks' =>
      if decide (group_source_key k = key) then Some k
      else first_with_source_key key ks'
  end.

(** Two rows that agree on every cell but GDPR_FLAG. *)
Definition same_text_cells (r r' : Row) : Prop :=
  table_name r = table_name r' ∧ COLUMN_NAME r = COLUMN_NAME r' ∧
  DATA_TYPE r = DATA_TYPE r' ∧ DATA_FORMAT r = DATA_FORMAT r' ∧
  NULLABLE r = NULLABLE r' ∧ FILE_NAME r = FILE_NAME r' ∧
  DECIMAL_SEPARATOR r = DECIMAL_SEPARATOR r' ∧ FILE_TYPE r = FILE_TYPE r'.

(** Two rows that agree on table_name, COLUMN_NAME and GDPR_FLAG. *)
Definition same_gdpr_cells (r r' : Row) : Prop :=
  table_name r = table_name r' ∧ COLUMN_NAME r = COLUMN_NAME r' ∧
  GDPR_FLAG r = GDPR_FLAG r'.

(** The row with its GDPR flag cleared. *)
Definition without_flag (r : Row) : Row :=
  mkRow (table_name r) (COLUMN_NAME r) (DATA_TYPE r) (DATA_FORMAT r) (NULLABLE r)
        (FILE_NAME r) (DECIMAL_SEPARATOR r) (FILE_TYPE r) false.

(** The three cells of a row that the GDPR document reads. *)
Definition gdpr_view (r : Row) : Row :=
  mkRow (table_name r) (COLUMN_NAME r) None None None None None None (GDPR_FLAG r).

(** * Sample frames *)

(** Two tables, CUSTOMER and ACCOUNT, each loaded from a file of its own;
    [customer_email] is the row of the documented example. *)
Definition customer_email : Row :=
  mkRow (Some "CUSTOMER") (Some "EMAIL") (Some "VARCHAR2(100)") None (Some "Y")
        (Some "customer.csv") (Some ".") (Some "CSV") true.

Definition customer_birth : Row :=
  mkRow (Some "CUSTOMER") (Some "BIRTH_DATE") (Some "DATE") (Some "YYYY-MM-DD")
        (Some "N") (Some "customer.csv") (Some ".") (Some "CSV") false.

Definition account_balance : Row :=
  mkRow (Some "ACCOUNT") (Some "BALANCE") (Some "NUMBER(12,2)") None None
        (Some "account.csv") (Some ",") (Some "CSV") false.

Definition sample_frame : DataFrame :=
  [customer_email; customer_birth; account_balance].

Definition sample_source : pyval := source_data_of "customer.csv" "." "CSV".

(** Two tables that load from one file. *)
Definition orders_id : Row :=
  mkRow (Some "ORDERS") (Some "ID") (Some "NUMBER") None (Some "N")
        (Some "orders.csv") (Some ".") (Some "CSV") false.

Definition order_items_qty : Row :=
  mkRow (Some "ORDER_ITEMS") (Some "QTY") (Some "NUMBER") None (Some "Y")
        (Some "orders.csv") (Some ".") (Some "CSV") false.

Definition shared_file_frame : DataFrame := [orders_id; order_items_qty].

(** Two different (file, separator, type) combinations whose source keys
    coincide. *)
Definition export_eu_total : Row :=
  mkRow (Some "EU_SALES") (Some "TOTAL") (Some "NUMBER") None (Some "N")
        (Some "export_eu") (Some ".") (Some "CSV") false.

Definition export_total : Row :=
  mkRow (Some "SALES") (Some "TOTAL") (Some "NUMBER") None (Some "N")
        (Some "export") (Some "eu_.") (Some "CSV") false.

Definition clash_frame : DataFrame := [export_eu_total; export_total].

(** One table that is loaded from two files. *)
Definition customer_phone_other_file : Row :=
  mkRow (Some "CUSTOMER") (Some "PHONE") (Some "VARCHAR2(20)") None (Some "Y")
        (Some "customer_contact.csv") (Some ".") (Some "CSV") true.

Definition two_files_frame : DataFrame := [customer_email; customer_phone_other_file].

(** A row with an empty COLUMN_NAME cell. *)
Definition unnamed_column : Row :=
  mkRow (Some "CUSTOMER") None (Some "DATE") None None
        (Some "customer.csv") (Some ".") (Some "CSV") false.

(** A flagged row with an empty COLUMN_NAME cell. *)
Definition unnamed_flagged : Row :=
  mkRow (Some "CUSTOMER") None (Some "DATE") None None
        (Some "customer.csv") (Some ".") (Some "CSV") true.

(** Stand-ins for the file system and the libraries, to exercise the
    statements about [main]: every path names a file of its own. *)
Definition sample_files : gmap string string :=
  {["metadata.csv" := "table_name;COLUMN_NAME;DATA_TYPE"]}.

Definition sample_resolve (path : string) : string := path.

Definition sample_parse (text : string) : option DataFrame := Some sample_frame.

Definition sample_dump_block (v : pyval) : string := "metadata document".

Definition sample_dump (v : pyval) : string := "gdpr document".

Definition only_metadata_writable (path : string) : bool :=
  bool_decide (path = "metadata.yaml").

(** * Facts about strings and the type mapper *)

Lemma prefix_iff key s :
  String.prefix key s = true ↔ ∃ post, s = key +:+ post.
Proof.
  revert key; induction s as [|c s IH]; intros [|k key]; simpl.
  - split; [by exists ""|done].
  - split; [done|intros [post ?]; discriminate].
  - split; [by eexists|done].
  - destruct (Ascii.ascii_dec k c) as [->|Hne].
    + rewrite IH. split; intros [post Hp]; exists post.
      * by rewrite Hp.
      * by injection Hp.
    + split; [done|]. intros [post Hp]. injection Hp. congruence.
Qed.

Lemma contains_iff key s : contains key s = true ↔ substring_of key s.
Proof.
  unfold substring_of. induction s as [|c s IH]; cbn [contains].
  - rewrite orb_false_r, prefix_iff. split.
    + intros [post Hp]. by exists "", post.
    + intros ([|??] & post & Hp); [by exists post|discriminate].
  - rewrite orb_true_iff, IH, prefix_iff. split.
    + intros [[post Hp]|(pre & post & Hp)].
      * by exists "", post.
      * exists (String c pre), post. by rewrite Hp.
    + intros ([|c' pre] & post & Hp).
      * left. by exists post.
      * right. exists pre, post. by injection Hp.
Qed.

Lemma contains_false_iff key s : contains key s = false ↔ ¬ substring_of key s.
Proof. rewrite <- contains_iff. by destruct (contains key s). Qed.

(** C2: [map_data_type] returns the canonical name of the first key of the
    ordered mapping VARCHAR2, NUMBER, DATE that occurs as a substring of the
    raw type, and "string" when none of the three occurs. *)
Theorem map_data_type_first_match (data_type : string) :
  (substring_of "VARCHAR2" data_type → map_data_type data_type = "string") ∧
  (¬ substring_of "VARCHAR2" data_type → substring_of "NUMBER" data_type →
     map_data_type data_type = "decimal(38,0)") ∧
  (¬ substring_of "VARCHAR2" data_type → ¬ substring_of "NUMBER" data_type →
     substring_of "DATE" data_type → map_data_type data_type = "date") ∧
  (¬ substring_of "VARCHAR2" data_type → ¬ substring_of "NUMBER" data_type →
     ¬ substring_of "DATE" data_type → map_data_type data_type = "string").
Proof.
  unfold map_data_type, type_mapping.
  rewrite <- !contains_false_iff, <- !contains_iff.
  repeat split; intros; rewrite ?filter_cons; simpl;
    repeat (case_decide; simpl); congruence.
Qed.

Example map_data_type_samples :
  map_data_type "VARCHAR2(50)" = "string" ∧
  map_data_type "NUMBER(12,2)" = "decimal(38,0)" ∧
  map_data_type "DATE" = "date" ∧
  map_data_type "NUMBER DATE" = "decimal(38,0)" ∧
  map_data_type "CLOB" = "string".
Proof. by vm_compute. Qed.

(** * The exception monad *)

Lemma bind_Ok {A C} (m : result A) (k : A → result C) c :
  PyMonad.bind m k = Ok c ↔ ∃ a, m = Ok a ∧ k a = Ok c.
Proof.
  destruct m as [a|e]; simpl.
  - split; [by exists a|]. by intros (? & [= <-] & ?).
  - split; [done|]. by intros (? & ? & ?).
Qed.

Section result_facts.
Context {A B : Type}.
Implicit Types (f : A → result B) (l : list A).

Lemma for_each_Ok f l ys :
  PyMonad.for_each f l = Ok ys ↔ Forall2 (λ x y, f x = Ok y) l ys.
Proof.
  revert ys. induction l as [|x l IH]; intros ys; cbn [PyMonad.for_each].
  - split; [intros [= <-]; constructor|by inversion 1].
  - rewrite bind_Ok. split.
    + intros (y & Hy & Hrest). apply bind_Ok in Hrest as (ys' & Hys & [= <-]).
      constructor; [done|]. by apply IH.
    + inversion 1 as [|? y ? ys' Hy Hys]; subst. exists y. split; [done|].
      apply bind_Ok. exists ys'. split; [by apply IH|done].
Qed.

Lemma for_each_total f l :
  Forall (λ x, ∃ y, f x = Ok y) l → ∃ ys, PyMonad.for_each f l = Ok ys.
Proof.
  induction 1 as [|x l [y Hy] _ [ys Hys]]; simpl; [by eexists|].
  exists (y :: ys). by rewrite Hy, Hys.
Qed.
End result_facts.

(** * The order on group keys is a total order *)

Section lex_le.
Context {A B : Type} (RA : relation A) (RB : relation B).
Context `{!PartialOrder RA, !PartialOrder RB}.

Global Instance lex_le_po : PartialOrder (lex_le RA RB).
Proof.
  split; [split|].
  - intros p. right. done.
  - intros p q r [[Hpq Rpq]|[Hpq Rpq]] [[Hqr Rqr]|[Hqr Rqr]].
    + left. split; [|by etrans]. intros Hpr. apply Hpq.
      apply (anti_symm RA); [done|]. by rewrite Hpr.
    + left. by rewrite <- Hqr.
    + left. by rewrite Hpq.
    + right. split; [congruence|by etrans].
  - intros [a b] [a' b'] [[H1 R1]|[H1 R1]] [[H2 R2]|[H2 R2]]; simpl in *.
    + destruct H1. by apply (anti_symm RA).
    + by destruct H1.
    + by destruct H2.
    + f_equal; [done|]. by apply (anti_symm RB).
Qed.

Global Instance lex_le_total `{EqDecision A, !Total RA, !Total RB} :
  Total (lex_le RA RB).
Proof.
  intros p q. unfold lex_le. destruct (decide (p.1 = q.1)) as [Heq|Hne].
  - destruct (total RB p.2 q.2); [left|right]; right; done.
  - destruct (total RA p.1 q.1); [left|right]; left; split; done.
Qed.
End lex_le.

Global Instance key_le_po : PartialOrder key_le.
Proof. unfold key_le. apply _. Qed.

Global Instance key_le_total : Total key_le.
Proof. unfold key_le. apply _. Qed.

(** * Facts about [groupby] *)

Lemma StronglySorted_strict {K} (R : relation K) `{!AntiSymm (=) R} (l : list K) :
  StronglySorted R l → NoDup l → StronglySorted (strict R) l.
Proof.
  induction 1 as [|x l Hl IH Hx]; intros Hnd; [constructor|].
  apply NoDup_cons in Hnd as [Hx' Hnd]. constructor; [by apply IH|].
  apply Forall_forall. intros y Hy. split.
  - by apply (Forall_forall (R x) l).
  - intros Hyx. apply Hx'.
    assert (x = y) as ->; [|done].
    apply (anti_symm R); [|done]. by apply (Forall_forall (R x) l).
Qed.

Section groupby_facts.
Context {K : Type} `{EqDecision K} (R : relation K).
Context `{!RelDecision R, !PartialOrder R, !Total R}.
Implicit Types (by_cols : Row → option K) (df : DataFrame) (k : K).

Lemma group_keys_Permutation by_cols df :
  group_keys R by_cols df ≡ₚ remove_dups (omap by_cols df).
Proof. apply merge_sort_Permutation. Qed.

Lemma elem_of_group_keys by_cols df k :
  k ∈ group_keys R by_cols df ↔ ∃ row, row ∈ df ∧ by_cols row = Some k.
Proof.
  rewrite group_keys_Permutation, elem_of_remove_dups, list_elem_of_omap.
  done.
Qed.

Lemma NoDup_group_keys by_cols df : NoDup (group_keys R by_cols df).
Proof. rewrite group_keys_Permutation. apply NoDup_remove_dups. Qed.

Lemma length_group_keys by_cols df :
  length (group_keys R by_cols df) = length (remove_dups (omap by_cols df)).
Proof. by rewrite group_keys_Permutation. Qed.

Lemma group_keys_sorted by_cols df : StronglySorted (strict R) (group_keys R by_cols df).
Proof.
  apply StronglySorted_strict; [apply _| |apply NoDup_group_keys].
  apply StronglySorted_merge_sort; apply _.
Qed.

Lemma groupby_keys by_cols df : (groupby R by_cols df).*1 = group_keys R by_cols df.
Proof.
  unfold groupby. rewrite <- list_fmap_compose. apply list_fmap_id.
Qed.

Lemma elem_of_groupby by_cols df k g :
  (k, g) ∈ groupby R by_cols df ↔ k ∈ group_keys R by_cols df ∧ g = get_group by_cols df k.
Proof.
  unfold groupby. rewrite list_elem_of_fmap. split.
  - by intros (k' & [= -> ->] & ?).
  - intros [? ->]. by exists k.
Qed.

Lemma elem_of_get_group by_cols df k row :
  row ∈ get_group by_cols df k ↔ row ∈ df ∧ by_cols row = Some k.
Proof. unfold get_group. rewrite list_elem_of_filter. tauto. Qed.

Lemma get_group_nonempty by_cols df k :
  k ∈ group_keys R by_cols df → get_group by_cols df k ≠ [].
Proof.
  intros (row & Hrow & Hk)%elem_of_group_keys Hnil.
  assert (row ∈ get_group by_cols df k) as Hin by by apply elem_of_get_group.
  rewrite Hnil in Hin. by apply not_elem_of_nil in Hin.
Qed.
End groupby_facts.

(** * Facts about the table aggregator *)

Lemma column_of_row_Ok row col :
  column_of_row row = Ok col ↔
  ∃ name data_type,
    COLUMN_NAME row = Some name ∧ DATA_TYPE row = Some data_type ∧
    col = PDict ([("name", PStr (lower name));
                  ("data_type", PStr (map_data_type data_type))]
                 ++ (if DATA_FORMAT row is Some _
                     then [("date_format", cell (DATA_FORMAT row))] else [])
                 ++ (if decide (NULLABLE row = Some "Y")
                     then [("is_nullable", PBool true)] else [])).
Proof.
  unfold column_of_row.
  destruct (COLUMN_NAME row) as [name|], (DATA_TYPE row) as [data_type|]; simpl.
  - split; [intros [= <-]; by eexists _, _|].
    by intros (? & ? & [= <-] & [= <-] & ->).
  - split; [done|]. by intros (? & ? & ? & ? & ?).
  - split; [done|]. by intros (? & ? & ? & ? & ?).
  - split; [done|]. by intros (? & ? & ? & ? & ?).
Qed.

Lemma process_table_Ok df source t :
  process_table df source = Ok t ↔
  ∃ row rest columns,
    df = row :: rest ∧
    Forall2 (λ row col, column_of_row row = Ok col) df columns ∧
    t = PDict [("name", cell (table_name row));
               ("source", source);
               ("columns", PList columns);
               ("primary_key", PList [PStr "unid"]);
               ("cdc_column", PStr "dml_flag");
               ("cdc_type", PStr "soft")].
Proof.
  unfold process_table. rewrite bind_Ok. split.
  - intros (name & Hname & (columns & Hcols & [= <-])%bind_Ok).
    destruct df as [|row rest]; [done|]. injection Hname as <-.
    exists row, rest, columns. by rewrite <- for_each_Ok.
  - intros (row & rest & columns & -> & Hcols%for_each_Ok & ->).
    eexists. split; [done|]. apply bind_Ok. by exists columns.
Qed.

Lemma process_table_columns df source t :
  process_table df source = Ok t →
  ∃ columns, item "columns" t = Some (PList columns) ∧
             Forall2 (λ row col, column_of_row row = Ok col) df columns.
Proof.
  intros (row & rest & columns & _ & Hcols & ->)%process_table_Ok.
  by exists columns.
Qed.

(** C3: every column definition built by [process_table] carries
    [date_format] with the row's DATA_FORMAT value when that value is not
    missing, and has no [date_format] key when it is missing. *)
Theorem date_format_iff_not_missing df source t :
  process_table df source = Ok t →
  ∃ columns,
    item "columns" t = Some (PList columns) ∧
    Forall2 (λ row col,
      (∀ v, DATA_FORMAT row = Some v → item "date_format" col = Some (PStr v)) ∧
      (DATA_FORMAT row = None → item "date_format" col = None)) df columns.
Proof.
  intros (columns & Hitem & Hcols)%process_table_columns.
  exists columns. split; [done|].
  eapply Forall2_impl; [done|]. intros row col.
  intros (name & data_type & _ & _ & ->)%column_of_row_Ok.
  destruct (DATA_FORMAT row) as [v|]; simpl.
  - split; [by intros ? [= <-]|done].
  - split; [done|]. intros _. by case_decide.
Qed.

(** C4: every column definition built by [process_table] carries
    [is_nullable: true] exactly when the row's NULLABLE value is "Y"; for
    any other value, a missing one included, the key is absent. *)
Theorem is_nullable_iff_Y df source t :
  process_table df source = Ok t →
  ∃ columns,
    item "columns" t = Some (PList columns) ∧
    Forall2 (λ row col,
      (NULLABLE row = Some "Y" → item "is_nullable" col = Some (PBool true)) ∧
      (NULLABLE row ≠ Some "Y" → item "is_nullable" col = None)) df columns.
Proof.
  intros (columns & Hitem & Hcols)%process_table_columns.
  exists columns. split; [done|].
  eapply Forall2_impl; [done|]. intros row col.
  intros (name & data_type & _ & _ & ->)%column_of_row_Ok.
  destruct (DATA_FORMAT row) as [v|]; simpl; by case_decide.
Qed.

(** * Facts about the source aggregator *)

Lemma process_group_Ok tables (sources : gmap string pyval) g tables' sources' :
  process_group (tables, sources) g = Ok (tables', sources') ↔
  ∃ source t,
    sources' = (if sources !! group_source_key g.1 is None
                then <[group_source_key g.1 := group_source_data g.1]> sources
                else sources) ∧
    sources' !! group_source_key g.1 = Some source ∧
    process_table g.2 source = Ok t ∧
    tables' = tables ++ [t].
Proof.
  destruct g as [[[[file_name decimal_separator] file_type] name] group].
  unfold process_group, group_source_key, group_source_data; simpl.
  set (key := source_key_of _ _ _). set (data := source_data_of _ _ _).
  set (cache := match sources !! key with None => _ | Some _ => _ end).
  rewrite bind_Ok. split.
  - intros (source & Hsrc & (t & Ht & [= <- <-])%bind_Ok).
    exists source, t. destruct (cache !! key); by simplify_eq.
  - intros (source & t & -> & Hsrc & Ht & ->).
    exists source. rewrite Hsrc. split; [done|]. apply bind_Ok. by exists t.
Qed.

Lemma process_group_cache_grows (sources : gmap string pyval) k :
  sources ⊆ (if sources !! group_source_key k is None
             then <[group_source_key k := group_source_data k]> sources
             else sources).
Proof.
  destruct (sources !! group_source_key k) eqn:Hk; [done|].
  by apply insert_subseteq.
Qed.

Lemma fold_process_group gs tables0 sources0 tables sources :
  PyMonad.fold process_group (tables0, sources0) gs = Ok (tables, sources) →
  sources0 ⊆ sources ∧ cached_from sources0 sources gs ∧
  ∃ new, tables = tables0 ++ new ∧ Forall2 (built_from sources) gs new.
Proof.
  revert tables0 sources0.
  induction gs as [|g gs IH]; intros tables0 sources0; cbn [PyMonad.fold].
  - intros [= <- <-]. split; [done|]. split; [by left|].
    exists []. by rewrite app_nil_r.
  - intros ([tables1 sources1] & Hstep & Hrest)%bind_Ok.
    apply process_group_Ok in Hstep as (source & t & Hcache & Hsrc & Ht & ->).
    apply IH in Hrest as (Hsub & Hfrom & new & -> & Hnew).
    assert (sources0 ⊆ sources1) as Hsub0
      by (rewrite Hcache; apply process_group_cache_grows).
    split; [by etrans|]. split.
    + intros key v Hv. destruct (Hfrom key v Hv) as [Hv1|(g' & ? & ? & ?)].
      * rewrite Hcache in Hv1.
        destruct (sources0 !! group_source_key g.1) eqn:Hk; [by left|].
        apply lookup_insert_Some in Hv1 as [[<- <-]|[_ ?]]; [|by left].
        right. exists g. split; [left|done].
      * right. exists g'. split; [by right|done].
    + exists (t :: new). split; [by rewrite <- app_assoc|].
      constructor; [|done]. exists source. split; [|done].
      by eapply lookup_weaken.
Qed.

Lemma process_source_Ok df tables :
  process_source df = Ok tables →
  ∃ sources,
    cached_from ∅ sources (groupby key_le by_file_and_table df) ∧
    Forall2 (built_from sources) (groupby key_le by_file_and_table df) tables.
Proof.
  unfold process_source.
  intros ([tables' sources] & Hfold & [= <-])%bind_Ok.
  apply fold_process_group in Hfold as (_ & Hfrom & new & -> & Hnew).
  by exists sources.
Qed.

Lemma by_file_and_table_Some row k :
  by_file_and_table row = Some k ↔
  FILE_NAME row = Some k.1.1.1 ∧ DECIMAL_SEPARATOR row = Some k.1.1.2 ∧
  FILE_TYPE row = Some k.1.2 ∧ table_name row = Some k.2.
Proof.
  destruct k as [[[file_name decimal_separator] file_type] name].
  unfold by_file_and_table.
  destruct (FILE_NAME row), (DECIMAL_SEPARATOR row), (FILE_TYPE row),
    (table_name row); simpl;
    (split; [by intros [= <- <- <- <-]
            |by intros ([= <-] & [= <-] & [= <-] & [= <-])]).
Qed.

(** The table built for a group carries the group's table name, the given
    descriptor and one column definition per row of the group, in row
    order. *)
Lemma process_table_group df k source t :
  process_table (get_group by_file_and_table df k) source = Ok t →
  item "name" t = Some (PStr k.2) ∧
  item "source" t = Some source ∧
  ∃ columns,
    item "columns" t = Some (PList columns) ∧
    Forall2 (λ row col, column_of_row row = Ok col)
            (get_group by_file_and_table df k) columns.
Proof.
  intros (row & rest & columns & Hdf & Hcols & ->)%process_table_Ok.
  assert (row ∈ get_group by_file_and_table df k) as Hrow
    by (rewrite Hdf; left).
  apply elem_of_get_group in Hrow as [_ (_ & _ & _ & Hname)%by_file_and_table_Some].
  rewrite Hname. split; [done|]. split; [done|]. by exists columns.
Qed.

(** * The metadata document *)

(** The tables of the document line up with the groups, in group order. *)
Lemma process_source_tables df tables :
  process_source df = Ok tables →
  Forall2 (λ k t,
    item "name" t = Some (PStr k.2) ∧
    ∃ columns,
      item "columns" t = Some (PList columns) ∧
      Forall2 (λ row col, column_of_row row = Ok col)
              (get_group by_file_and_table df k) columns)
    (group_keys key_le by_file_and_table df) tables.
Proof.
  intros (sources & _ & Hbuilt)%process_source_Ok.
  unfold groupby in Hbuilt. rewrite Forall2_fmap_l in Hbuilt.
  eapply Forall2_impl; [done|]. intros k t (source & _ & Ht); simpl in *.
  apply process_table_group in Ht as (? & _ & ?). done.
Qed.

(** C7: the metadata document has [version] 2, [name] "dwh" and the table
    definitions under [tables]; every table definition has [primary_key]
    ["unid"], [cdc_column] "dml_flag" and [cdc_type] "soft". *)
Theorem metadata_fixed_fields df doc :
  generate_metadata_yaml df = Ok doc →
  ∃ tables,
    process_source df = Ok tables ∧
    doc = PDict [("version", PInt 2); ("name", PStr "dwh");
                 ("tables", PList tables)] ∧
    Forall (λ t,
      item "primary_key" t = Some (PList [PStr "unid"]) ∧
      item "cdc_column" t = Some (PStr "dml_flag") ∧
      item "cdc_type" t = Some (PStr "soft")) tables.
Proof.
  unfold generate_metadata_yaml.
  intros (tables & Htables & [= <-])%bind_Ok.
  exists tables. split; [done|]. split; [done|].
  apply process_source_Ok in Htables as (sources & _ & Hbuilt).
  induction Hbuilt as [|g t gs ts (source & _ & Ht) _ IH]; constructor; [|done].
  by apply process_table_Ok in Ht as (? & ? & ? & _ & _ & ->).
Qed.

(** C8: the table definitions come in strictly increasing order of the
    grouping key (FILE_NAME, DECIMAL_SEPARATOR, FILE_TYPE, table_name), one
    per key occurring in the input; the columns of each are the column
    definitions of the input rows with that key, in input row order. *)
Theorem tables_in_key_order df tables :
  process_source df = Ok tables →
  ∃ keys : list group_key,
    StronglySorted (strict key_le) keys ∧
    (∀ k, k ∈ keys ↔ ∃ row, row ∈ df ∧ by_file_and_table row = Some k) ∧
    Forall2 (λ k t,
      item "name" t = Some (PStr k.2) ∧
      ∃ columns,
        item "columns" t = Some (PList columns) ∧
        Forall2 (λ row col, column_of_row row = Ok col)
                (filter (λ row, by_file_and_table row = Some k) df) columns)
      keys tables.
Proof.
  intros Htables. exists (group_keys key_le by_file_and_table df).
  split; [apply group_keys_sorted; apply _|].
  split; [intros k; apply elem_of_group_keys|].
  by apply process_source_tables.
Qed.

(** In [sample_frame] the CUSTOMER rows come first, yet the ACCOUNT table
    is first in the document: the order is that of the keys, not that of
    first appearance. *)
Example tables_not_in_first_seen_order :
  table_name <$> sample_frame !! 0 = Some (Some "CUSTOMER") ∧
  ∃ account customer,
    process_source sample_frame = Ok [account; customer] ∧
    item "name" account = Some (PStr "ACCOUNT") ∧
    item "name" customer = Some (PStr "CUSTOMER").
Proof. split; [done|]. eexists _, _. split; [vm_compute; reflexivity|done]. Qed.

Lemma group_source_key_eq df ki kj ri rj :
  ri ∈ get_group by_file_and_table df ki →
  rj ∈ get_group by_file_and_table df kj →
  FILE_NAME ri = FILE_NAME rj →
  DECIMAL_SEPARATOR ri = DECIMAL_SEPARATOR rj →
  FILE_TYPE ri = FILE_TYPE rj →
  group_source_key ki = group_source_key kj.
Proof.
  intros [_ (Hf1 & Hd1 & Ht1 & _)%by_file_and_table_Some]%elem_of_get_group.
  intros [_ (Hf2 & Hd2 & Ht2 & _)%by_file_and_table_Some]%elem_of_get_group.
  rewrite Hf1, Hf2, Hd1, Hd2, Ht1, Ht2. intros [= Hf] [= Hd] [= Ht].
  unfold group_source_key. by rewrite Hf, Hd, Ht.
Qed.

Lemma process_source_lookup df tables :
  process_source df = Ok tables →
  ∃ sources,
    cached_from ∅ sources (groupby key_le by_file_and_table df) ∧
    ∀ i k t,
      group_keys key_le by_file_and_table df !! i = Some k →
      tables !! i = Some t →
      ∃ source, sources !! group_source_key k = Some source ∧
                item "source" t = Some source.
Proof.
  intros (sources & Hfrom & Hbuilt)%process_source_Ok.
  exists sources. split; [done|]. intros i k t Hk Ht.
  assert (groupby key_le by_file_and_table df !! i
          = Some (k, get_group by_file_and_table df k)) as Hg
    by (unfold groupby; by rewrite list_lookup_fmap, Hk).
  destruct (Forall2_lookup_lr _ _ _ _ _ _ Hbuilt Hg Ht) as (source & Hsrc & Hpt).
  exists source. split; [done|].
  by apply process_table_group in Hpt as (_ & ? & _).
Qed.

(** C6: two table definitions of one metadata document whose rows have the
    same FILE_NAME, DECIMAL_SEPARATOR and FILE_TYPE embed the same source
    descriptor.  The i-th table is the one built from the i-th group (see
    [process_source_tables]). *)
Theorem shared_source_descriptor df tables i j ki kj ti tj ri rj :
  process_source df = Ok tables →
  group_keys key_le by_file_and_table df !! i = Some ki →
  group_keys key_le by_file_and_table df !! j = Some kj →
  tables !! i = Some ti →
  tables !! j = Some tj →
  ri ∈ get_group by_file_and_table df ki →
  rj ∈ get_group by_file_and_table df kj →
  FILE_NAME ri = FILE_NAME rj →
  DECIMAL_SEPARATOR ri = DECIMAL_SEPARATOR rj →
  FILE_TYPE ri = FILE_TYPE rj →
  ∃ source, item "source" ti = Some source ∧ item "source" tj = Some source.
Proof.
  intros Htables Hki Hkj Hti Htj Hri Hrj Hf Hd Ht.
  destruct (process_source_lookup df tables) as (sources & _ & Hsrc); [done|].
  destruct (Hsrc i ki ti Hki Hti) as (si & Hsi & Hi).
  destruct (Hsrc j kj tj Hkj Htj) as (sj & Hsj & Hj).
  rewrite (group_source_key_eq df ki kj ri rj) in Hsi by done.
  exists si. split; [done|]. congruence.
Qed.

(** When no two groups of the frame share a source key, every table embeds
    the descriptor made from its own file name, separator and file type. *)
Lemma source_of_own_group df tables i k t :
  (∀ k1 k2, k1 ∈ group_keys key_le by_file_and_table df →
            k2 ∈ group_keys key_le by_file_and_table df →
            group_source_key k1 = group_source_key k2 → k1.1 = k2.1) →
  process_source df = Ok tables →
  group_keys key_le by_file_and_table df !! i = Some k →
  tables !! i = Some t →
  item "source" t = Some (group_source_data k).
Proof.
  intros Hinj Htables Hk Ht.
  destruct (process_source_lookup df tables) as (sources & Hfrom & Hsrc); [done|].
  destruct (Hsrc i k t Hk Ht) as (source & Hsource & ->). f_equal.
  destruct (Hfrom _ _ Hsource) as [?|([k' g'] & Hg & Hkey & ->)]; [done|].
  apply elem_of_groupby in Hg as [Hk' _]; [|apply _..]. simpl in *.
  unfold group_source_data. rewrite (Hinj k k'); [done| |done..].
  by eapply list_elem_of_lookup_2.
Qed.

(** C9 fails on the code: the two groups of [clash_frame] get the same
    source key "source_export_eu_._CSV", so the table EU_SALES, whose rows
    have FILE_NAME "export_eu" and DECIMAL_SEPARATOR ".", embeds the
    descriptor cached for the group of SALES. *)
Theorem source_key_clash_reuses_descriptor :
  source_key_of "export_eu" "." "CSV" = source_key_of "export" "eu_." "CSV" ∧
  FILE_NAME export_eu_total = Some "export_eu" ∧
  DECIMAL_SEPARATOR export_eu_total = Some "." ∧
  ∃ sales eu_sales source params,
    process_source clash_frame = Ok [sales; eu_sales] ∧
    item "name" eu_sales = Some (PStr "EU_SALES") ∧
    item "source" eu_sales = Some source ∧
    item "file_pattern" source = Some (PStr "export") ∧
    item "params" source = Some params ∧
    item "decimal_separator" params = Some (PStr "eu_.").
Proof.
  split; [done|]. split; [done|]. split; [done|].
  eexists _, _, _, _. split; [vm_compute; reflexivity|]. done.
Qed.

(** * Counting table definitions *)

Lemma process_source_length df tables :
  process_source df = Ok tables →
  length tables = length (distinct_group_keys df).
Proof.
  intros Htables%process_source_tables%Forall2_length.
  rewrite <- Htables. apply length_group_keys.
Qed.

Lemma one_file_per_table_names df :
  one_file_per_table df →
  distinct_table_names df ≡ₚ snd <$> distinct_group_keys df.
Proof.
  unfold one_file_per_table, distinct_table_names, distinct_group_keys.
  intros Hone.
  assert (∀ r1 r2 n, r1 ∈ df → r2 ∈ df →
            table_name r1 = Some n → table_name r2 = Some n →
            ∃ k, by_file_and_table r1 = Some k ∧ by_file_and_table r2 = Some k)
    as Hkey.
  { intros r1 r2 n H1 H2 Hn1 Hn2.
    rewrite Forall_forall in Hone. specialize (Hone r1 H1).
    rewrite Forall_forall in Hone.
    destruct (Hone r2 H2) as [[k Hk] Heq]; [by rewrite Hn1|congruence|].
    exists k. by rewrite <- Heq. }
  apply NoDup_Permutation.
  - apply NoDup_remove_dups.
  - apply NoDup_fmap_2_strong; [|apply NoDup_remove_dups].
    intros k1 k2.
    rewrite !elem_of_remove_dups, !list_elem_of_omap.
    intros (r1 & H1 & Hk1) (r2 & H2 & Hk2) Hsnd.
    pose proof Hk1 as (_ & _ & _ & Hn1)%by_file_and_table_Some.
    pose proof Hk2 as (_ & _ & _ & Hn2)%by_file_and_table_Some.
    rewrite <- Hsnd in Hn2.
    destruct (Hkey r1 r2 _ H1 H2 Hn1 Hn2) as (k & ? & ?). congruence.
  - intros n.
    rewrite list_elem_of_fmap, elem_of_remove_dups, list_elem_of_omap. split.
    + intros (r & Hr & Hn).
      destruct (Hkey r r n Hr Hr Hn Hn) as (k & Hk & _).
      exists k. rewrite elem_of_remove_dups, list_elem_of_omap.
      pose proof Hk as (_ & _ & _ & Hn')%by_file_and_table_Some.
      split; [congruence|]. by exists r.
    + intros (k & -> & Hk).
      rewrite elem_of_remove_dups, list_elem_of_omap in Hk.
      destruct Hk as (r & Hr & Hk). exists r. split; [done|].
      by apply by_file_and_table_Some in Hk as (_ & _ & _ & ?).
Qed.

(** C1, amended: the document has one table definition per distinct
    grouping key (FILE_NAME, DECIMAL_SEPARATOR, FILE_TYPE, table_name)
    among the rows in which all four are present; when every row with a
    table name has a complete key and the rows of one table agree on it,
    that is one table definition per distinct table name. *)
Theorem tables_one_per_group_key df tables :
  process_source df = Ok tables →
  length tables = length (distinct_group_keys df) ∧
  (one_file_per_table df →
   length tables = length (distinct_table_names df)).
Proof.
  intros Htables. split; [by apply process_source_length|].
  intros Hone. rewrite (process_source_length df tables Htables).
  by rewrite (one_file_per_table_names df Hone), length_fmap.
Qed.

(** * The GDPR document *)

Lemma filter_fmap {A B} (f : A → B) (P : B → Prop) `{!∀ y, Decision (P y)}
    (l : list A) :
  filter P (f <$> l) = f <$> filter (λ x, P (f x)) l.
Proof.
  induction l as [|x l IH]; [done|].
  rewrite fmap_cons, !filter_cons, IH. by destruct (decide (P (f x))).
Qed.

Lemma StronglySorted_filter {A} (R : relation A) (P : A → Prop)
    `{!∀ x, Decision (P x)} (l : list A) :
  StronglySorted R l → StronglySorted R (filter P l).
Proof.
  induction 1 as [|x l Hl IH Hx]; [constructor|].
  rewrite filter_cons. destruct (decide (P x)); [|done].
  constructor; [done|]. apply Forall_forall.
  intros y [_ Hy]%list_elem_of_filter. by apply (Forall_forall (R x) l).
Qed.

Lemma for_each_fmap_Ok {A B C} (h : B → result C) (m : A → B) (p : A → C)
    (l : list A) :
  (∀ x, h (m x) = Ok (p x)) → PyMonad.for_each h (m <$> l) = Ok (p <$> l).
Proof.
  intros Hh. induction l as [|x l IH]; [done|].
  rewrite !fmap_cons; cbn [PyMonad.for_each]. by rewrite Hh, IH.
Qed.

Lemma for_each_fmap_Raise {A B C} (h : B → result C) (m : A → B) e (l : list A) :
  l ≠ [] → (∀ x, h (m x) = Raise e) → PyMonad.for_each h (m <$> l) = Raise e.
Proof.
  intros Hl Hh. destruct l as [|x l]; [done|].
  rewrite fmap_cons; cbn [PyMonad.for_each]. by rewrite Hh.
Qed.

Lemma for_each_fmap_ext {A B C} (h : B → result C) (m1 m2 : A → B) (l : list A) :
  (∀ x, h (m1 x) = h (m2 x)) →
  PyMonad.for_each h (m1 <$> l) = PyMonad.for_each h (m2 <$> l).
Proof.
  intros Hh. induction l as [|x l IH]; [done|].
  rewrite !fmap_cons; cbn [PyMonad.for_each]. by rewrite Hh, IH.
Qed.

Lemma object_dtype_true df :
  object_dtype (COLUMN_NAME <$> df) = true ↔
  ∃ row, row ∈ df ∧ is_Some (COLUMN_NAME row).
Proof.
  unfold object_dtype. rewrite bool_decide_eq_true, Exists_exists. split.
  - intros (c & (row & -> & Hrow)%list_elem_of_fmap & Hc). by exists row.
  - intros (row & Hrow & Hc). exists (COLUMN_NAME row). split; [|done].
    apply list_elem_of_fmap. by exists row.
Qed.

Lemma object_dtype_false df :
  object_dtype (COLUMN_NAME <$> df) = false ↔
  Forall (λ row, COLUMN_NAME row = None) df.
Proof.
  rewrite <- not_true_iff_false, object_dtype_true, Forall_forall. split.
  - intros Hnone row Hrow. destruct (COLUMN_NAME row) eqn:Hc; [|done].
    destruct Hnone. exists row. by rewrite Hc.
  - intros Hnone (row & Hrow & [c Hc]). by rewrite (Hnone row Hrow) in Hc.
Qed.

Lemma generate_gdpr_yaml_eq df :
  generate_gdpr_yaml df =
  let! gdpr :=
    PyMonad.for_each (gdpr_entry (object_dtype (COLUMN_NAME <$> df)))
      ((λ name, (name, get_group table_name df name)) <$> gdpr_names df) in
  Ok (PList gdpr).
Proof. unfold generate_gdpr_yaml, groupby, gdpr_names. by rewrite filter_fmap. Qed.

Lemma gdpr_entry_object name g :
  gdpr_entry true (name, g) = Ok (entry_of name (gdpr_rows g)).
Proof.
  unfold gdpr_entry, str_lower_tolist, entry_of; simpl.
  by rewrite <- list_fmap_compose.
Qed.

Lemma generate_gdpr_yaml_object df :
  object_dtype (COLUMN_NAME <$> df) = true →
  generate_gdpr_yaml df =
  Ok (PList ((λ name, entry_of name (gdpr_rows (get_group table_name df name)))
             <$> gdpr_names df)).
Proof.
  intros Hobject. rewrite generate_gdpr_yaml_eq, Hobject.
  by rewrite (for_each_fmap_Ok _ _
    (λ name, entry_of name (gdpr_rows (get_group table_name df name))))
    by (intros name; apply gdpr_entry_object).
Qed.

Lemma generate_gdpr_yaml_float df :
  object_dtype (COLUMN_NAME <$> df) = false →
  generate_gdpr_yaml df =
  if decide (gdpr_names df = []) then Ok (PList []) else Raise AttributeError.
Proof.
  intros Hfloat. rewrite generate_gdpr_yaml_eq, Hfloat.
  destruct (decide (gdpr_names df = [])) as [->|Hnames]; [done|].
  by rewrite (for_each_fmap_Raise _ _ AttributeError).
Qed.

Lemma generate_gdpr_yaml_Ok df doc :
  generate_gdpr_yaml df = Ok doc →
  doc = PList ((λ name, entry_of name (gdpr_rows (get_group table_name df name)))
               <$> gdpr_names df).
Proof.
  destruct (object_dtype (COLUMN_NAME <$> df)) eqn:Hdtype.
  - rewrite generate_gdpr_yaml_object by done. by intros [= <-].
  - rewrite generate_gdpr_yaml_float by done.
    destruct (decide (gdpr_names df = [])) as [->|_]; [|done]. by intros [= <-].
Qed.

Lemma gdpr_rows_get_group df name :
  gdpr_rows (get_group table_name df name) =
  filter (λ row, table_name row = Some name ∧ GDPR_FLAG row = true) df.
Proof.
  unfold gdpr_rows, get_group. rewrite list_filter_filter.
  apply list_filter_iff. tauto.
Qed.

Lemma elem_of_gdpr_names df name :
  name ∈ gdpr_names df ↔
  ∃ row, row ∈ df ∧ table_name row = Some name ∧ GDPR_FLAG row = true.
Proof.
  unfold gdpr_names.
  rewrite list_elem_of_filter, elem_of_group_keys by apply _.
  rewrite gdpr_rows_get_group. split.
  - intros [Hne _].
    destruct (filter _ df) as [|row rows] eqn:Hrows; [done|].
    assert (row ∈ filter (λ row, table_name row = Some name ∧
                                 GDPR_FLAG row = true) df) as Hrow
      by (rewrite Hrows; left).
    apply list_elem_of_filter in Hrow as [[? ?] ?]. by exists row.
  - intros (row & Hrow & Hname & Hflag). split; [|by exists row].
    intros Hnil.
    assert (row ∈ filter (λ row, table_name row = Some name ∧
                                 GDPR_FLAG row = true) df) as Hin
      by by apply list_elem_of_filter.
    rewrite Hnil in Hin. by apply elem_of_nil in Hin.
Qed.

Lemma gdpr_names_sorted df : StronglySorted (strict String.le) (gdpr_names df).
Proof. apply StronglySorted_filter, group_keys_sorted; apply _. Qed.

Lemma gdpr_names_nil df :
  gdpr_names df = [] ↔
  Forall (λ row, GDPR_FLAG row = true → table_name row = None) df.
Proof.
  rewrite Forall_forall. split.
  - intros Hnil row Hrow Hflag.
    destruct (table_name row) as [name|] eqn:Hname; [|done].
    assert (name ∈ gdpr_names df) as Hin
      by (apply elem_of_gdpr_names; by exists row).
    rewrite Hnil in Hin. by apply elem_of_nil in Hin.
  - intros Hnone. apply elem_of_nil_inv. intros name.
    intros (row & Hrow & Hname & Hflag)%elem_of_gdpr_names.
    by rewrite (Hnone row Hrow Hflag) in Hname.
Qed.

(** C5: the GDPR document has exactly one entry per table name that has a
    row with the GDPR flag set, and none for any other table; the entry
    lists under "hash" the lowercased COLUMN_NAME values of exactly the
    flagged rows of that table, in row order. *)
Theorem gdpr_entries_of_flagged_tables df doc :
  generate_gdpr_yaml df = Ok doc →
  ∃ names : list string,
    StronglySorted (strict String.le) names ∧
    (∀ name, name ∈ names ↔
       ∃ row, row ∈ df ∧ table_name row = Some name ∧ GDPR_FLAG row = true) ∧
    doc =
    PList ((λ name,
              PDict [("name", PStr name);
                     ("personal_data",
                      PDict [("hash",
                        PList ((λ row, cell (lower <$> COLUMN_NAME row)) <$>
                               filter (λ row, table_name row = Some name ∧
                                              GDPR_FLAG row = true) df))])])
           <$> names).
Proof.
  intros ->%generate_gdpr_yaml_Ok. exists (gdpr_names df).
  split; [apply gdpr_names_sorted|]. split; [apply elem_of_gdpr_names|].
  f_equal. apply list_fmap_ext. intros _ name _. unfold entry_of.
  by rewrite gdpr_rows_get_group.
Qed.

(** The GDPR document is produced unless no cell of COLUMN_NAME holds text
    while some flagged row has a table name. *)
Lemma generate_gdpr_yaml_total df :
  gdpr_columns_are_text df → ∃ doc, generate_gdpr_yaml df = Ok doc.
Proof.
  intros [Htext%object_dtype_true|Hnone%gdpr_names_nil].
  - rewrite generate_gdpr_yaml_object by done. by eexists.
  - destruct (object_dtype (COLUMN_NAME <$> df)) eqn:Hdtype.
    + rewrite generate_gdpr_yaml_object by done. by eexists.
    + rewrite generate_gdpr_yaml_float, Hnone by done. by eexists.
Qed.

Lemma generate_gdpr_yaml_Ok_text df doc :
  generate_gdpr_yaml df = Ok doc → gdpr_columns_are_text df.
Proof.
  destruct (object_dtype (COLUMN_NAME <$> df)) eqn:Hdtype.
  - intros _. left. by apply object_dtype_true.
  - rewrite generate_gdpr_yaml_float by done.
    destruct (decide (gdpr_names df = [])) as [Hnil|_]; [|done].
    intros _. right. by apply gdpr_names_nil.
Qed.

(** [generate_gdpr_yaml] raises exactly when some flagged row has a table
    name while no cell of COLUMN_NAME holds text, and then it is the
    AttributeError of the [.str] accessor. *)
Theorem generate_gdpr_yaml_Raise df e :
  generate_gdpr_yaml df = Raise e ↔
  e = AttributeError ∧
  Forall (λ row, COLUMN_NAME row = None) df ∧
  ∃ row, row ∈ df ∧ GDPR_FLAG row = true ∧ is_Some (table_name row).
Proof.
  destruct (object_dtype (COLUMN_NAME <$> df)) eqn:Hdtype.
  - rewrite generate_gdpr_yaml_object by done. split; [done|].
    intros (_ & Hnone%object_dtype_false & _). congruence.
  - rewrite generate_gdpr_yaml_float by done.
    destruct (decide (gdpr_names df = [])) as [Hnil|Hnames].
    + split; [done|]. intros (_ & _ & row & Hrow & Hflag & [name Hname]).
      rewrite gdpr_names_nil, Forall_forall in Hnil.
      by rewrite (Hnil row Hrow Hflag) in Hname.
    + split.
      * intros [= <-]. split; [done|]. split; [by apply object_dtype_false|].
        destruct (gdpr_names df) as [|name names] eqn:Hlist; [done|].
        assert (name ∈ gdpr_names df) as Hin by (rewrite Hlist; left).
        apply elem_of_gdpr_names in Hin as (row & Hrow & Hname & Hflag).
        exists row. by rewrite Hname.
      * by intros (-> & _ & _).
Qed.

(** * The two documents side by side *)


(** A column of a table definition comes from a row with all four key
    cells and the table name of the definition. *)
Lemma column_in_metadata df tables t name columns col :
  process_source df = Ok tables →
  t ∈ tables → item "name" t = Some (PStr name) →
  item "columns" t = Some (PList columns) → col ∈ columns →
  ∃ row, row ∈ df ∧ is_Some (by_file_and_table row) ∧
         table_name row = Some name ∧ column_of_row row = Ok col.
Proof.
  intros Htables%process_source_tables [i Hi]%list_elem_of_lookup_1 Hname Hcolumns.
  destruct (Forall2_lookup_r _ _ _ _ _ Htables Hi)
    as (k & Hk & Hname' & columns' & Hcolumns' & Hcols).
  assert (columns' = columns) as -> by congruence.
  assert (k.2 = name) as <- by congruence.
  intros [j Hj]%list_elem_of_lookup_1.
  destruct (Forall2_lookup_r _ _ _ _ _ Hcols Hj) as (row & Hrow & Hcol).
  apply list_elem_of_lookup_2, elem_of_get_group in Hrow as [Hrow Hkey].
  exists row. split; [done|]. split; [by rewrite Hkey|]. split; [|done].
  by apply by_file_and_table_Some in Hkey as (_ & _ & _ & ?).
Qed.



(** Conversely, the coverage of the flagged rows follows from that of the
    GDPR entries: it is exactly what the two documents need to agree. *)
Lemma flagged_rows_covered_if df metadata tables entries :
  generate_metadata_yaml df = Ok metadata →
  generate_gdpr_yaml df = Ok (PList entries) →
  item "tables" metadata = Some (PList tables) →
  Forall (λ e, ∃ name hash,
    item "name" e = Some (PStr name) ∧
    item "personal_data" e ≫= item "hash" = Some (PList hash) ∧
    Forall (λ c, ∃ t columns col,
      t ∈ tables ∧ item "name" t = Some (PStr name) ∧
      item "columns" t = Some (PList columns) ∧
      col ∈ columns ∧ item "name" col = Some c) hash) entries →
  flagged_rows_covered df.
Proof.
  intros Hdoc Hgdpr Htables Hall row Hrow Hflag [name Hname].
  unfold generate_metadata_yaml in Hdoc.
  apply bind_Ok in Hdoc as (tables' & Hsource & [= <-]).
  injection Htables as <-.
  apply generate_gdpr_yaml_Ok in Hgdpr. injection Hgdpr as ->.
  rewrite Forall_fmap, Forall_forall in Hall.
  destruct (Hall name) as (name' & hash & [= <-] & [= <-] & Hhash).
  { apply elem_of_gdpr_names. by exists row. }
  rewrite Forall_fmap, Forall_forall in Hhash.
  destruct (Hhash row) as (t & columns & col & Ht & Htname & Hcolumns & Hcol & Hitem).
  { rewrite gdpr_rows_get_group. by apply list_elem_of_filter. }
  destruct (column_in_metadata df tables' t name columns col)
    as (row' & Hrow' & Hkey & Htn & Hcolumn); [done..|].
  exists row'. split; [done|]. split; [done|]. split; [congruence|].
  apply column_of_row_Ok in Hcolumn as (cn & dt & Hcn & _ & ->).
  simpl in Hitem. rewrite Hcn.
  destruct (COLUMN_NAME row) as [cn'|]; simpl in *; congruence.
Qed.

(** * The conversion succeeds on well-formed rows *)

Lemma column_of_row_total row :
  is_Some (COLUMN_NAME row) → is_Some (DATA_TYPE row) →
  ∃ col, column_of_row row = Ok col.
Proof.
  intros [name Hname] [data_type Htype]. eexists.
  apply column_of_row_Ok. by exists name, data_type.
Qed.

Lemma process_table_total df k source :
  named_and_typed df →
  k ∈ group_keys key_le by_file_and_table df →
  ∃ t, process_table (get_group by_file_and_table df k) source = Ok t.
Proof.
  intros Hrows Hk. unfold named_and_typed in Hrows.
  rewrite Forall_forall in Hrows.
  destruct (for_each_total column_of_row (get_group by_file_and_table df k))
    as [columns Hcolumns].
  { apply Forall_forall. intros row [Hrow Hkey]%elem_of_get_group.
    destruct (Hrows row Hrow) as [? ?]; [by rewrite Hkey|].
    by apply column_of_row_total. }
  apply get_group_nonempty in Hk; [|apply _..].
  destruct (get_group by_file_and_table df k) as [|row rest] eqn:Hgroup; [done|].
  eexists. apply process_table_Ok. exists row, rest, columns.
  split; [done|]. split; [by apply for_each_Ok|done].
Qed.

Lemma fold_process_group_total df ks tables sources :
  named_and_typed df →
  ks ⊆ group_keys key_le by_file_and_table df →
  ∃ st, PyMonad.fold process_group (tables, sources)
          ((λ k, (k, get_group by_file_and_table df k)) <$> ks) = Ok st.
Proof.
  intros Hrows. revert tables sources.
  induction ks as [|k ks IH]; intros tables sources Hks; [by eexists|].
  rewrite fmap_cons; cbn [PyMonad.fold].
  set (cache := if sources !! group_source_key k is None
                then <[group_source_key k := group_source_data k]> sources
                else sources).
  assert (is_Some (cache !! group_source_key k)) as [source Hsource].
  { unfold cache. destruct (sources !! group_source_key k) eqn:Hk; [by eexists|].
    rewrite lookup_insert_eq. by eexists. }
  destruct (process_table_total df k source Hrows) as [t Ht].
  { apply Hks. left. }
  destruct (IH (tables ++ [t]) cache) as [st Hst].
  { intros k' Hk'. apply Hks. by right. }
  exists st. apply bind_Ok. exists (tables ++ [t], cache). split; [|done].
  apply process_group_Ok. by exists source, t.
Qed.

(** The metadata document is produced whenever every row that has a file
    name, a decimal separator, a file type and a table name also has a
    column name and a data type. *)
Lemma generate_metadata_yaml_total df :
  named_and_typed df → ∃ doc, generate_metadata_yaml df = Ok doc.
Proof.
  intros Hrows.
  destruct (fold_process_group_total df
              (group_keys key_le by_file_and_table df) [] ∅ Hrows)
    as [[tables sources] Hfold]; [done|].
  eexists. unfold generate_metadata_yaml, process_source, groupby.
  by rewrite Hfold.
Qed.

(** * Further properties of the type mapper and of the aggregators *)

Lemma map_data_type_cases data_type :
  map_data_type data_type = "string" ∨
  map_data_type data_type = "decimal(38,0)" ∨
  map_data_type data_type = "date".
Proof.
  unfold map_data_type, type_mapping.
  rewrite !filter_cons, filter_nil; simpl.
  repeat case_decide; simpl; auto.
Qed.

(** Whatever the raw type, [map_data_type] returns one of the three
    canonical type names. *)
Theorem map_data_type_canonical data_type :
  map_data_type data_type ∈ canonical_types.
Proof.
  unfold canonical_types.
  destruct (map_data_type_cases data_type) as [-> | [-> | ->]].
  - left.
  - right. left.
  - do 2 right. left.
Qed.

(** A loop raises the exception of the first element that raises. *)
Lemma for_each_Raise {A B} (f : A → result B) l e :
  PyMonad.for_each f l = Raise e ↔
  ∃ pre x post, l = pre ++ x :: post ∧
    Forall (λ y, ∃ b, f y = Ok b) pre ∧ f x = Raise e.
Proof.
  split.
  - induction l as [|x l IH]; cbn [PyMonad.for_each]; [done|].
    destruct (f x) as [b|e'] eqn:Hx; simpl.
    + destruct (PyMonad.for_each f l) as [bs|e'']; simpl; [done|].
      intros [= ->]. destruct (IH eq_refl) as (pre & z & post & -> & Hpre & Hz).
      exists (x :: pre), z, post. split; [done|]. split; [|done].
      constructor; [by exists b|done].
    + intros [= ->]. exists [], x, l. by repeat split.
  - intros (pre & x & post & -> & Hpre & Hx).
    induction Hpre as [|y pre [b Hy] _ IH]; cbn [PyMonad.for_each app].
    + by rewrite Hx.
    + by rewrite Hy, IH.
Qed.

Lemma column_of_row_Raise row e :
  column_of_row row = Raise e ↔
  (COLUMN_NAME row = None ∧ e = AttributeError) ∨
  (is_Some (COLUMN_NAME row) ∧ DATA_TYPE row = None ∧ e = TypeError).
Proof.
  unfold column_of_row.
  destruct (COLUMN_NAME row) as [name|], (DATA_TYPE row) as [data_type|]; simpl.
  - split; [done|]. intros [[? _]|(_ & ? & _)]; done.
  - split.
    + intros [= <-]. right. by split; [eexists|].
    + intros [[? _]|(_ & _ & ->)]; done.
  - split.
    + intros [= <-]. by left.
    + intros [[_ ->]|([? ?] & _)]; done.
  - split.
    + intros [= <-]. by left.
    + intros [[_ ->]|([? ?] & _)]; done.
Qed.

Lemma process_table_Raise_row df source e :
  process_table df source = Raise e →
  (df = [] ∧ e = IndexError) ∨
  ∃ pre row post,
    df = pre ++ row :: post ∧
    Forall (λ r, is_Some (COLUMN_NAME r) ∧ is_Some (DATA_TYPE r)) pre ∧
    ((COLUMN_NAME row = None ∧ e = AttributeError) ∨
     (is_Some (COLUMN_NAME row) ∧ DATA_TYPE row = None ∧ e = TypeError)).
Proof.
  unfold process_table. destruct df as [|row0 rest]; cbn [PyMonad.bind].
  - intros [= <-]. by left.
  - set (df := row0 :: rest).
    destruct (PyMonad.for_each column_of_row df) as [columns|e'] eqn:Hcols;
      cbn [PyMonad.bind]; [done|].
    intros [= ->]. right.
    apply for_each_Raise in Hcols as (pre & row & post & Hdf & Hpre & Hrow).
    exists pre, row, post. split; [done|]. split.
    + eapply Forall_impl; [done|]. intros r [col Hcol].
      apply column_of_row_Ok in Hcol as (? & ? & -> & -> & _). by split; eexists.
    + by apply column_of_row_Raise.
Qed.

Lemma process_table_Raise_at df source pre row post e :
  df = pre ++ row :: post →
  Forall (λ r, is_Some (COLUMN_NAME r) ∧ is_Some (DATA_TYPE r)) pre →
  (COLUMN_NAME row = None ∧ e = AttributeError) ∨
  (is_Some (COLUMN_NAME row) ∧ DATA_TYPE row = None ∧ e = TypeError) →
  process_table df source = Raise e.
Proof.
  intros Hdf Hpre Hrow.
  assert (PyMonad.for_each column_of_row df = Raise e) as Hcols.
  { apply for_each_Raise. exists pre, row, post. split; [done|]. split.
    - eapply Forall_impl; [done|]. intros r [? ?]. by apply column_of_row_total.
    - by apply column_of_row_Raise. }
  unfold process_table. rewrite Hcols.
  destruct df as [|row0 rest]; [by destruct pre|done].
Qed.

(** [process_table] raises IndexError on an empty frame ([df.iloc[0]]);
    on a non-empty frame it raises exactly when some row lacks a column
    name or a data type, and then with the exception of the first such
    row: AttributeError when the column name is missing ([.lower()] on
    NaN), else TypeError ([key in data_type] on NaN). *)
Theorem process_table_Raise df source e :
  process_table df source = Raise e ↔
  (df = [] ∧ e = IndexError) ∨
  ∃ pre row post,
    df = pre ++ row :: post ∧
    Forall (λ r, is_Some (COLUMN_NAME r) ∧ is_Some (DATA_TYPE r)) pre ∧
    ((COLUMN_NAME row = None ∧ e = AttributeError) ∨
     (is_Some (COLUMN_NAME row) ∧ DATA_TYPE row = None ∧ e = TypeError)).
Proof.
  split; [apply process_table_Raise_row|].
  intros [[-> ->]|(pre & row & post & Hdf & Hpre & Hrow)]; [done|].
  by eapply process_table_Raise_at.
Qed.

(** A table definition has one column definition per row, in row order:
    its [name] is the lowercased COLUMN_NAME, its [data_type] the mapped
    DATA_TYPE, always one of the canonical names, and its keys are [name],
    [data_type], then [date_format] and [is_nullable] when present, in
    this order. *)
Theorem column_definitions_of_rows df source t :
  process_table df source = Ok t →
  item "columns" t = Some (PList (columns_of t)) ∧
  Forall2 (λ row col,
    item "name" col = PStr ∘ lower <$> COLUMN_NAME row ∧
    item "data_type" col = PStr ∘ map_data_type <$> DATA_TYPE row ∧
    (∃ ty, ty ∈ canonical_types ∧ item "data_type" col = Some (PStr ty)) ∧
    ∃ d, col = PDict d ∧
         d.*1 = ["name"; "data_type"]
                ++ (if DATA_FORMAT row is Some _ then ["date_format"] else [])
                ++ (if decide (NULLABLE row = Some "Y") then ["is_nullable"] else []))
    df (columns_of t).
Proof.
  intros (columns & Hitem & Hcols)%process_table_columns.
  unfold columns_of. rewrite Hitem. split; [done|].
  eapply Forall2_impl; [done|]. intros row col.
  intros (name & data_type & -> & -> & ->)%column_of_row_Ok.
  split; [done|]. split; [done|]. split.
  - exists (map_data_type data_type). split; [|done]. unfold canonical_types.
    destruct (map_data_type_cases data_type) as [-> | [-> | ->]].
    + left.
    + right. left.
    + do 2 right. left.
  - eexists. split; [done|].
    destruct (DATA_FORMAT row); case_decide; done.
Qed.

Lemma process_group_Raise tables (sources : gmap string pyval) g e :
  process_group (tables, sources) g = Raise e →
  ∃ source, process_table g.2 source = Raise e.
Proof.
  destruct g as [[[[file_name decimal_separator] file_type] name] group].
  unfold process_group; simpl.
  set (key := source_key_of _ _ _). set (data := source_data_of _ _ _).
  destruct (sources !! key) as [v|] eqn:Hkey.
  - rewrite Hkey; simpl. intros Hraise. exists v.
    destruct (process_table group v); [done|]. by injection Hraise as ->.
  - rewrite lookup_insert_eq; simpl. intros Hraise. exists data.
    destruct (process_table group data); [done|]. by injection Hraise as ->.
Qed.

Lemma fold_process_group_Raise df ks tables sources e :
  PyMonad.fold process_group (tables, sources)
    ((λ k, (k, get_group by_file_and_table df k)) <$> ks) = Raise e →
  ∃ k source, k ∈ ks ∧
    process_table (get_group by_file_and_table df k) source = Raise e.
Proof.
  revert tables sources.
  induction ks as [|k ks IH]; intros tables sources; [done|].
  rewrite fmap_cons; cbn [PyMonad.fold].
  destruct (process_group _ _) as [[tables' sources']|e'] eqn:Hstep;
    cbn [PyMonad.bind].
  - intros (k' & source & ? & ?)%IH. exists k', source. split; [by right|done].
  - intros [= ->]. apply process_group_Raise in Hstep as [source Hsource].
    exists k, source. split; [left|done].
Qed.

(** When the metadata document cannot be built, the exception is an
    AttributeError or a TypeError caused by a row of some group: the
    lookups [df.iloc[0]] and [sources[source_key]] never fail. *)
Theorem generate_metadata_yaml_Raise df e :
  generate_metadata_yaml df = Raise e →
  ∃ row,
    row ∈ df ∧ is_Some (by_file_and_table row) ∧
    ((COLUMN_NAME row = None ∧ e = AttributeError) ∨
     (is_Some (COLUMN_NAME row) ∧ DATA_TYPE row = None ∧ e = TypeError)).
Proof.
  unfold generate_metadata_yaml, process_source, groupby.
  destruct (PyMonad.fold _ _ _) as [st|e'] eqn:Hfold; [done|].
  cbn [PyMonad.bind]. intros [= ->].
  apply fold_process_group_Raise in Hfold as (k & source & Hk & Hraise).
  apply process_table_Raise_row in Hraise
    as [[Hnil _]|(pre & row & post & Hgroup & _ & Hrow)].
  - by apply get_group_nonempty in Hk; [|apply _..].
  - assert (row ∈ get_group by_file_and_table df k) as [? Hkey]%elem_of_get_group.
    { rewrite Hgroup. apply elem_of_app. right. left. }
    exists row. split; [done|]. split; [|done]. by rewrite Hkey.
Qed.

Lemma grouped_row_has_column df tables row :
  process_source df = Ok tables →
  row ∈ df → is_Some (by_file_and_table row) →
  ∃ col, column_of_row row = Ok col.
Proof.
  intros Htables%process_source_tables Hrow [k Hk].
  assert (k ∈ group_keys key_le by_file_and_table df) as [i Hi]%list_elem_of_lookup_1.
  { apply elem_of_group_keys; [apply _..|]. by exists row. }
  destruct (Forall2_lookup_l _ _ _ _ _ Htables Hi)
    as (t & _ & _ & columns & _ & Hcols).
  assert (row ∈ get_group by_file_and_table df k) as [j Hj]%list_elem_of_lookup_1
    by by apply elem_of_get_group.
  destruct (Forall2_lookup_l _ _ _ _ _ Hcols Hj) as (col & _ & ?). by exists col.
Qed.

Lemma process_source_Ok_named df tables :
  process_source df = Ok tables → named_and_typed df.
Proof.
  intros Htables. apply Forall_forall. intros row Hrow Hkey.
  destruct (grouped_row_has_column df tables row) as [col Hcol]; [done..|].
  apply column_of_row_Ok in Hcol as (? & ? & -> & -> & _). by split; eexists.
Qed.

Lemma process_source_total df :
  named_and_typed df → ∃ tables, process_source df = Ok tables.
Proof.
  intros [doc Hdoc]%generate_metadata_yaml_total.
  unfold generate_metadata_yaml in Hdoc.
  apply bind_Ok in Hdoc as (tables & ? & _). by exists tables.
Qed.

(** The metadata document is produced exactly when every row that has a
    file name, a decimal separator, a file type and a table name also has
    a column name and a data type.  Rows left out by [groupby] are never
    looked at. *)
Theorem generate_metadata_yaml_Ok_iff df :
  (∃ doc, generate_metadata_yaml df = Ok doc) ↔ named_and_typed df.
Proof.
  split; [|apply generate_metadata_yaml_total].
  intros [doc Hdoc]. unfold generate_metadata_yaml in Hdoc.
  apply bind_Ok in Hdoc as (tables & Htables & _).
  by apply (process_source_Ok_named df tables).
Qed.

(** The metadata document has an empty [tables] list exactly when no row
    has all four key cells; this covers the empty frame. *)
Theorem no_tables_iff_no_complete_key df :
  generate_metadata_yaml df =
    Ok (PDict [("version", PInt 2); ("name", PStr "dwh"); ("tables", PList [])]) ↔
  Forall (λ row, by_file_and_table row = None) df.
Proof.
  split.
  - unfold generate_metadata_yaml.
    intros (tables & Htables & [= ->])%bind_Ok.
    apply process_source_length in Htables. unfold distinct_group_keys in Htables.
    apply Forall_forall. intros row Hrow.
    destruct (by_file_and_table row) as [k|] eqn:Hk; [|done].
    assert (k ∈ remove_dups (omap by_file_and_table df)) as Hin.
    { apply elem_of_remove_dups, list_elem_of_omap. by exists row. }
    destruct (remove_dups _); [by apply elem_of_nil in Hin|done].
  - intros Hnone.
    assert (omap by_file_and_table df = []) as Hkeys.
    { induction Hnone as [|row df Hrow _ IH]; [done|]. simpl. by rewrite Hrow. }
    unfold generate_metadata_yaml, process_source, groupby, group_keys.
    by rewrite Hkeys.
Qed.

Lemma sum_list_with_add {A} (f g : A → nat) (l : list A) :
  sum_list_with (λ x, f x + g x) l = sum_list_with f l + sum_list_with g l.
Proof. induction l as [|x l IH]; simpl; lia. Qed.

Lemma sum_list_with_ext {A} (f g : A → nat) (l : list A) :
  (∀ x, f x = g x) → sum_list_with f l = sum_list_with g l.
Proof. intros Hfg. induction l as [|x l IH]; simpl; [done|]. by rewrite Hfg, IH. Qed.

Lemma sum_list_with_fmap {A B} (h : A → B) (f : B → nat) (l : list A) :
  sum_list_with f (h <$> l) = sum_list_with (f ∘ h) l.
Proof. induction l as [|x l IH]; simpl; [done|]. by f_equal. Qed.

Section groupby_partition.
Context {K : Type} `{EqDecision K}.
Implicit Types (by_cols : Row → option K) (df : DataFrame) (ks : list K).

Lemma sum_key_indicator (o : option K) ks :
  NoDup ks →
  sum_list_with (λ k, if decide (o = Some k) then 1 else 0) ks =
  match o with
  | Some k0 => if decide (k0 ∈ ks) then 1 else 0
  | None => 0
  end.
Proof.
  induction 1 as [|k ks Hk Hks IH]; simpl.
  - destruct o as [k0|]; [|done].
    destruct (decide (k0 ∈ [])) as [Hin|_]; [by apply elem_of_nil in Hin|done].
  - rewrite IH. destruct o as [k0|]; [|by rewrite decide_False].
    destruct (decide (k0 ∈ ks)) as [Hin|Hnin];
      destruct (decide (k0 ∈ k :: ks)) as [Hin'|Hnin'];
      destruct (decide (Some k0 = Some k)) as [Heq|Hne];
      try done; exfalso.
    + injection Heq as ->. done.
    + apply Hnin'. by right.
    + apply Hnin'. by right.
    + apply elem_of_cons in Hin' as [->|?]; done.
    + injection Heq as ->. apply Hnin'. left.
Qed.

Lemma sum_length_groups by_cols df ks :
  NoDup ks →
  (∀ row k, row ∈ df → by_cols row = Some k → k ∈ ks) →
  sum_list_with (λ k, length (get_group by_cols df k)) ks =
  length (filter (λ row, is_Some (by_cols row)) df).
Proof.
  intros Hks. induction df as [|row df IH]; intros Hall.
  - clear Hall. induction ks as [|k ks IHks]; [done|].
    apply NoDup_cons in Hks as [_ Hks]. simpl. by apply IHks.
  - rewrite filter_cons.
    rewrite (sum_list_with_ext _ (λ k,
      (if decide (by_cols row = Some k) then 1 else 0)
      + length (get_group by_cols df k))); last first.
    { intros k. unfold get_group. rewrite filter_cons.
      by destruct (decide (by_cols row = Some k)). }
    rewrite sum_list_with_add, sum_key_indicator by done.
    rewrite IH by (intros r k ? ?; eapply Hall; [by right|done]).
    destruct (by_cols row) as [k0|] eqn:Hrow.
    + rewrite decide_True by (eapply Hall; [left|done]).
      by rewrite decide_True by by eexists.
    + rewrite decide_False; [done|]. by intros [? ?].
Qed.
End groupby_partition.

(** No row is lost or duplicated: the column definitions of all tables
    together are as many as the rows that have all four key cells, and no
    table definition is without columns. *)
Theorem every_keyed_row_in_one_table df tables :
  process_source df = Ok tables →
  sum_list_with (λ t, length (columns_of t)) tables =
    length (filter (λ row, is_Some (by_file_and_table row)) df) ∧
  Forall (λ t, columns_of t ≠ []) tables.
Proof.
  intros Htables%process_source_tables.
  assert (Forall2 (λ k t, length (columns_of t)
                          = length (get_group by_file_and_table df k))
            (group_keys key_le by_file_and_table df) tables) as Hlen.
  { eapply Forall2_impl; [done|]. intros k t (_ & columns & Hitem & Hcols).
    unfold columns_of. rewrite Hitem. symmetry. by eapply Forall2_length. }
  split.
  - rewrite <- (sum_length_groups by_file_and_table df
                  (group_keys key_le by_file_and_table df)).
    + clear Htables. induction Hlen as [|k t ks ts Hkt _ IH]; simpl; [done|].
      by rewrite Hkt, IH.
    + apply NoDup_group_keys; apply _.
    + intros row k Hrow Hk. apply elem_of_group_keys; [apply _..|]. by exists row.
  - apply Forall_forall. intros t [i Hi]%list_elem_of_lookup_1.
    destruct (Forall2_lookup_r _ _ _ _ _ Hlen Hi) as (k & Hk & Hkt).
    apply list_elem_of_lookup_2, get_group_nonempty in Hk; [|apply _..].
    intros Hnil. rewrite Hnil in Hkt. by destruct (get_group _ _ _).
Qed.

Lemma gdpr_rows_get_group_comm df name :
  gdpr_rows (get_group table_name df name) = get_group table_name (gdpr_rows df) name.
Proof.
  unfold gdpr_rows, get_group. rewrite !list_filter_filter.
  apply list_filter_iff. tauto.
Qed.

Lemma hash_of_entry_of name flagged :
  hash_of (entry_of name flagged) =
  (λ row, cell (lower <$> COLUMN_NAME row)) <$> flagged.
Proof. done. Qed.

(** The "hash" lists of the GDPR document together have as many items as
    there are flagged rows with a table name, and none of them is
    empty. *)
Theorem every_flagged_row_in_one_entry df doc :
  generate_gdpr_yaml df = Ok doc →
  sum_list_with (λ e, length (hash_of e)) (elements doc) =
    length (filter (λ row, GDPR_FLAG row = true ∧ is_Some (table_name row)) df) ∧
  Forall (λ e, hash_of e ≠ []) (elements doc).
Proof.
  intros ->%generate_gdpr_yaml_Ok; simpl. split.
  - rewrite sum_list_with_fmap.
    rewrite (sum_list_with_ext _ (λ name,
      length (get_group table_name (gdpr_rows df) name))); last first.
    { intros name; simpl. rewrite hash_of_entry_of.
      by rewrite length_fmap, gdpr_rows_get_group_comm. }
    unfold gdpr_names.
    assert (∀ ks : list string,
      sum_list_with (λ name, length (get_group table_name (gdpr_rows df) name))
        (filter (λ name, gdpr_rows (get_group table_name df name) ≠ []) ks) =
      sum_list_with (λ name, length (get_group table_name (gdpr_rows df) name)) ks)
      as ->.
    { induction ks as [|k ks IH]; [done|]. rewrite filter_cons.
      destruct (decide (gdpr_rows (get_group table_name df k) ≠ [])) as [?|Hnil];
        simpl; rewrite IH; [done|].
      apply dec_stable in Hnil. rewrite gdpr_rows_get_group_comm in Hnil.
      by rewrite Hnil. }
    rewrite (sum_length_groups table_name (gdpr_rows df)).
    + unfold gdpr_rows. rewrite list_filter_filter.
      f_equal. apply list_filter_iff. tauto.
    + apply NoDup_group_keys; apply _.
    + intros row k [_ Hrow]%list_elem_of_filter Hk.
      apply elem_of_group_keys; [apply _..|]. by exists row.
  - apply Forall_fmap, Forall_forall. intros name Hname; simpl.
    rewrite hash_of_entry_of. unfold gdpr_names in Hname.
    apply list_elem_of_filter in Hname as [Hne _].
    intros Hnil. by apply fmap_nil_inv in Hnil.
Qed.

Lemma first_with_source_key_Some key ks k :
  first_with_source_key key ks = Some k →
  ∃ j, ks !! j = Some k ∧ group_source_key k = key ∧
       ∀ j' k', ks !! j' = Some k' → j' < j → group_source_key k' ≠ key.
Proof.
  induction ks as [|k0 ks IH]; simpl; [done|]. case_decide as Hk0.
  - intros [= <-]. exists 0. split; [done|]. split; [done|]. intros; lia.
  - intros (j & Hj & Hkey & Hfirst)%IH. exists (S j).
    split; [done|]. split; [done|].
    intros [|j'] k' Hk' Hlt; simpl in Hk'; [congruence|].
    apply (Hfirst j' k' Hk'). lia.
Qed.

Lemma fold_process_group_cache gs tables0 (sources0 : gmap string pyval) tables sources :
  PyMonad.fold process_group (tables0, sources0) gs = Ok (tables, sources) →
  ∀ key,
    sources !! key =
    match sources0 !! key with
    | Some v => Some v
    | None => group_source_data <$> first_with_source_key key gs.*1
    end.
Proof.
  revert tables0 sources0.
  induction gs as [|g gs IH]; intros tables0 sources0; cbn [PyMonad.fold].
  - intros [= <- <-] key. by destruct (sources0 !! key).
  - intros ([tables1 sources1] & Hstep & Hrest)%bind_Ok key.
    apply process_group_Ok in Hstep as (source & t & Hcache & _ & _ & _).
    rewrite (IH _ _ Hrest key), Hcache. rewrite fmap_cons; simpl.
    destruct (sources0 !! group_source_key g.1) as [v|] eqn:Hg.
    + case_decide as Hkey; [|done]. by rewrite <- Hkey, Hg.
    + case_decide as Hkey.
      * by rewrite <- Hkey, lookup_insert_eq, Hg.
      * by rewrite lookup_insert_ne.
Qed.

(** The descriptor of a table as a function of the sorted keys alone. *)
Lemma process_source_source df tables i k t :
  process_source df = Ok tables →
  group_keys key_le by_file_and_table df !! i = Some k →
  tables !! i = Some t →
  item "source" t =
  group_source_data <$>
    first_with_source_key (group_source_key k)
                          (group_keys key_le by_file_and_table df).
Proof.
  unfold process_source.
  intros ([tables' sources] & Hfold & [= <-])%bind_Ok Hk Ht.
  pose proof (fold_process_group_cache _ _ _ _ _ Hfold (group_source_key k)) as Hcache.
  rewrite lookup_empty, groupby_keys in Hcache by apply _.
  apply fold_process_group in Hfold as (_ & _ & new & -> & Hbuilt).
  assert (groupby key_le by_file_and_table df !! i
          = Some (k, get_group by_file_and_table df k)) as Hg
    by (unfold groupby; by rewrite list_lookup_fmap, Hk).
  destruct (Forall2_lookup_lr _ _ _ _ _ _ Hbuilt Hg Ht) as (source & Hsrc & Hpt).
  apply process_table_group in Hpt as (_ & -> & _).
  by rewrite <- Hcache, <- Hsrc.
Qed.

(** The source cache keeps the first descriptor stored under a key: a
    table embeds the descriptor made for the first group, in key order,
    that has the same source key as its own group. *)
Theorem source_of_first_group_with_key df tables i k t :
  process_source df = Ok tables →
  group_keys key_le by_file_and_table df !! i = Some k →
  tables !! i = Some t →
  ∃ j k',
    j ≤ i ∧
    group_keys key_le by_file_and_table df !! j = Some k' ∧
    group_source_key k' = group_source_key k ∧
    (∀ j' k'', group_keys key_le by_file_and_table df !! j' = Some k'' →
               j' < j → group_source_key k'' ≠ group_source_key k) ∧
    item "source" t = Some (group_source_data k').
Proof.
  intros Htables Hk Ht.
  pose proof (process_source_source df tables i k t Htables Hk Ht) as Hsource.
  destruct (process_source_lookup df tables Htables) as (sources & _ & Hsrc).
  destruct (Hsrc i k t Hk Ht) as (source & _ & Hitem).
  rewrite Hitem in Hsource.
  destruct (first_with_source_key _ _) as [k'|] eqn:Hfirst; [|done].
  injection Hsource as ->.
  apply first_with_source_key_Some in Hfirst as (j & Hj & Hkey & Hmin).
  exists j, k'. split; [|done].
  destruct (decide (j ≤ i)) as [|Hlt]; [done|].
  destruct (Hmin i k Hk); [lia|done].
Qed.

(** Every embedded source descriptor has [load_type] "delta", the fixed
    partition pattern, and a file pattern, decimal separator and
    lowercased format taken from one row of the input. *)
Theorem source_descriptor_fixed_fields df tables :
  process_source df = Ok tables →
  Forall (λ t, ∃ source params file_pattern decimal_separator format,
    item "source" t = Some source ∧
    item "load_type" source = Some (PStr "delta") ∧
    item "file_pattern" source = Some (PStr file_pattern) ∧
    item "partition_pattern" source = Some (PStr "(\d+(?:\.\d+)?)_(?:\d+\D+)$") ∧
    item "params" source = Some params ∧
    item "decimal_separator" params = Some (PStr decimal_separator) ∧
    item "format" params = Some (PStr format) ∧
    ∃ row, row ∈ df ∧ FILE_NAME row = Some file_pattern ∧
           DECIMAL_SEPARATOR row = Some decimal_separator ∧
           lower <$> FILE_TYPE row = Some format) tables.
Proof.
  intros Htables.
  destruct (process_source_lookup df tables Htables) as (sources & Hfrom & Hsrc).
  apply Forall_forall. intros t [i Ht]%list_elem_of_lookup_1.
  pose proof (process_source_tables df tables Htables) as Hkeys.
  destruct (Forall2_lookup_r _ _ _ _ _ Hkeys Ht) as (k & Hk & _).
  destruct (Hsrc i k t Hk Ht) as (source & Hsource & Hitem).
  destruct (Hfrom _ _ Hsource) as [?|([k' g'] & Hg & _ & ->)]; [done|].
  apply elem_of_groupby in Hg as [Hk' _]; [|apply _..].
  apply elem_of_group_keys in Hk' as (row & Hrow & Hkey); [|apply _..].
  apply by_file_and_table_Some in Hkey as (Hf & Hd & Hty & _).
  eexists _, _, _, _, _. split; [done|]. repeat (split; [done|]).
  exists row. split; [done|].
  by rewrite Hf, Hd, Hty.
Qed.

Section groupby_order.
Context {K : Type} `{EqDecision K} (R : relation K).
Context `{!RelDecision R, !PartialOrder R, !Total R}.
Implicit Types (by_cols : Row → option K) (df : DataFrame).

Lemma group_keys_permutation by_cols df df' :
  df ≡ₚ df' → group_keys R by_cols df = group_keys R by_cols df'.
Proof.
  intros Hperm. apply (StronglySorted_unique R).
  - apply StronglySorted_merge_sort; apply _.
  - apply StronglySorted_merge_sort; apply _.
  - apply NoDup_Permutation; [by apply NoDup_group_keys..|].
    intros k. rewrite !elem_of_group_keys by done.
    by setoid_rewrite Hperm.
Qed.

Lemma get_group_permutation by_cols df df' k :
  df ≡ₚ df' → get_group by_cols df k ≡ₚ get_group by_cols df' k.
Proof. intros Hperm. unfold get_group. by rewrite Hperm. Qed.

(** Mapping the rows with a function that keeps the key. *)
Lemma group_keys_fmap by_cols (f : Row → Row) df :
  (∀ row, by_cols (f row) = by_cols row) →
  group_keys R by_cols (f <$> df) = group_keys R by_cols df.
Proof.
  intros Hf. unfold group_keys. do 2 f_equal.
  induction df as [|row df IH]; [done|]. rewrite fmap_cons; simpl.
  rewrite Hf. destruct (by_cols row); [f_equal|]; exact IH.
Qed.

Lemma get_group_fmap by_cols (f : Row → Row) df k :
  (∀ row, by_cols (f row) = by_cols row) →
  get_group by_cols (f <$> df) k = f <$> get_group by_cols df k.
Proof.
  intros Hf. unfold get_group. rewrite filter_fmap. f_equal.
  apply list_filter_iff. intros row. by rewrite Hf.
Qed.
End groupby_order.

(** The columns of a table as a function of the rows of its group. *)
Lemma columns_of_group g columns :
  Forall2 (λ row col, column_of_row row = Ok col) g columns →
  columns = (λ row, if column_of_row row is Ok col then col else PNaN) <$> g.
Proof.
  induction 1 as [|row col g columns Hrow _ IH]; [done|].
  rewrite fmap_cons. by rewrite Hrow, IH.
Qed.

Lemma named_and_typed_permutation df df' :
  df ≡ₚ df' → named_and_typed df → named_and_typed df'.
Proof. unfold named_and_typed. by intros ->. Qed.

(** Reordering the input rows changes neither whether the conversion
    succeeds, nor the sequence of tables, their names and their source
    descriptors; the columns of each table are permuted. *)
Theorem row_order_only_permutes_columns df df' tables :
  df ≡ₚ df' →
  process_source df = Ok tables →
  ∃ tables',
    process_source df' = Ok tables' ∧
    Forall2 (λ t t',
      item "name" t = item "name" t' ∧
      item "source" t = item "source" t' ∧
      columns_of t ≡ₚ columns_of t') tables tables'.
Proof.
  intros Hperm Htables.
  assert (∃ tables', process_source df' = Ok tables') as [tables' Htables'].
  { apply process_source_total, (named_and_typed_permutation df); [done|].
    by apply (process_source_Ok_named df tables). }
  exists tables'. split; [done|].
  pose proof (process_source_tables df tables Htables) as Hkeys.
  pose proof (process_source_tables df' tables' Htables') as Hkeys'.
  rewrite <- (group_keys_permutation key_le by_file_and_table df df' Hperm) in Hkeys'.
  apply Forall2_same_length_lookup. split.
  - by rewrite <- (Forall2_length _ _ _ Hkeys), (Forall2_length _ _ _ Hkeys').
  - intros i t t' Ht Ht'.
    destruct (Forall2_lookup_r _ _ _ _ _ Hkeys Ht)
      as (k & Hk & Hname & columns & Hitem & Hcols).
    destruct (Forall2_lookup_lr _ _ _ _ _ _ Hkeys' Hk Ht')
      as (Hname' & columns' & Hitem' & Hcols').
    split; [congruence|]. split.
    + rewrite (process_source_source df tables i k t) by done.
      rewrite (process_source_source df' tables' i k t'); [| done | | done].
      * by rewrite (group_keys_permutation key_le by_file_and_table df df').
      * by rewrite <- (group_keys_permutation key_le by_file_and_table df df').
    + unfold columns_of. rewrite Hitem, Hitem'.
      rewrite (columns_of_group _ _ Hcols), (columns_of_group _ _ Hcols').
      apply fmap_Permutation. by apply get_group_permutation.
Qed.

Section metadata_of_mapped_rows.
Context (f : Row → Row).
Hypothesis f_key : ∀ row, by_file_and_table (f row) = by_file_and_table row.
Hypothesis f_column : ∀ row, column_of_row (f row) = column_of_row row.
Hypothesis f_name : ∀ row, table_name (f row) = table_name row.

Lemma for_each_column_fmap g :
  PyMonad.for_each column_of_row (f <$> g) = PyMonad.for_each column_of_row g.
Proof.
  induction g as [|row g IH]; [done|].
  rewrite fmap_cons; cbn [PyMonad.for_each]. by rewrite f_column, IH.
Qed.

Lemma process_table_fmap g source :
  process_table (f <$> g) source = process_table g source.
Proof.
  unfold process_table. rewrite for_each_column_fmap.
  destruct g as [|row g]; [done|]. by rewrite fmap_cons, f_name.
Qed.

Lemma fold_process_group_fmap df ks st :
  PyMonad.fold process_group st
    ((λ k, (k, get_group by_file_and_table (f <$> df) k)) <$> ks) =
  PyMonad.fold process_group st
    ((λ k, (k, get_group by_file_and_table df k)) <$> ks).
Proof.
  revert st. induction ks as [|k ks IH]; intros [tables sources]; [done|].
  rewrite !fmap_cons; cbn [PyMonad.fold].
  assert (process_group (tables, sources)
            (k, get_group by_file_and_table (f <$> df) k) =
          process_group (tables, sources)
            (k, get_group by_file_and_table df k)) as ->.
  { destruct k as [[[file_name decimal_separator] file_type] name].
    unfold process_group; cbv zeta. rewrite get_group_fmap by done.
    match goal with |- context [?m !! ?key] =>
      lazymatch m with
      | context [source_data_of] => destruct (m !! key) as [source|]
      end
    end; cbn [PyMonad.bind]; [|done].
    by rewrite process_table_fmap. }
  destruct (process_group _ _) as [st'|e]; [|done]. apply IH.
Qed.

Lemma generate_metadata_yaml_fmap df :
  generate_metadata_yaml (f <$> df) = generate_metadata_yaml df.
Proof.
  unfold generate_metadata_yaml, process_source, groupby.
  by rewrite (group_keys_fmap key_le by_file_and_table f df f_key),
    fold_process_group_fmap.
Qed.
End metadata_of_mapped_rows.

Lemma without_flag_eq df df' :
  Forall2 same_text_cells df df' → without_flag <$> df = without_flag <$> df'.
Proof.
  induction 1 as [|r r' df df' Hr _ IH]; [done|].
  rewrite !fmap_cons, IH. f_equal.
  destruct r, r', Hr as (? & ? & ? & ? & ? & ? & ? & ?); simpl in *.
  unfold without_flag; simpl. congruence.
Qed.

(** The metadata document does not depend on GDPR_FLAG: frames that agree
    on all text cells give the same result. *)
Theorem metadata_ignores_gdpr_flag df df' :
  Forall2 same_text_cells df df' →
  generate_metadata_yaml df = generate_metadata_yaml df'.
Proof.
  intros Hsame%without_flag_eq.
  assert (∀ d, generate_metadata_yaml (without_flag <$> d)
               = generate_metadata_yaml d) as Hmap
    by (intros d; by apply generate_metadata_yaml_fmap).
  by rewrite <- (Hmap df), <- (Hmap df'), Hsame.
Qed.

Section gdpr_of_mapped_rows.
Context (f : Row → Row).
Hypothesis f_name : ∀ row, table_name (f row) = table_name row.
Hypothesis f_column : ∀ row, COLUMN_NAME (f row) = COLUMN_NAME row.
Hypothesis f_flag : ∀ row, GDPR_FLAG (f row) = GDPR_FLAG row.

Lemma gdpr_rows_fmap g : gdpr_rows (f <$> g) = f <$> gdpr_rows g.
Proof.
  unfold gdpr_rows. rewrite filter_fmap. f_equal.
  apply list_filter_iff. intros row. by rewrite f_flag.
Qed.

Lemma gdpr_columns_fmap df name :
  COLUMN_NAME <$> gdpr_rows (get_group table_name (f <$> df) name) =
  COLUMN_NAME <$> gdpr_rows (get_group table_name df name).
Proof.
  rewrite get_group_fmap, gdpr_rows_fmap by done.
  rewrite <- list_fmap_compose. apply list_fmap_ext. intros _ row _; simpl.
  apply f_column.
Qed.

Lemma generate_gdpr_yaml_fmap df :
  generate_gdpr_yaml (f <$> df) = generate_gdpr_yaml df.
Proof.
  rewrite !generate_gdpr_yaml_eq.
  assert (COLUMN_NAME <$> (f <$> df) = COLUMN_NAME <$> df) as ->.
  { rewrite <- list_fmap_compose. apply list_fmap_ext. intros _ row _. apply f_column. }
  assert (gdpr_names (f <$> df) = gdpr_names df) as ->.
  { unfold gdpr_names.
    rewrite (group_keys_fmap String.le table_name f df f_name).
    apply list_filter_iff. intros name.
    rewrite get_group_fmap, gdpr_rows_fmap by done.
    split; intros Hne Hnil; apply Hne.
    - by rewrite Hnil.
    - by apply fmap_nil_inv in Hnil. }
  rewrite (for_each_fmap_ext _ _ (λ name, (name, get_group table_name df name)));
    [done|].
  intros name. unfold gdpr_entry; simpl. by rewrite gdpr_columns_fmap.
Qed.
End gdpr_of_mapped_rows.

Lemma gdpr_view_eq df df' :
  Forall2 same_gdpr_cells df df' → gdpr_view <$> df = gdpr_view <$> df'.
Proof.
  induction 1 as [|r r' df df' Hr _ IH]; [done|].
  rewrite !fmap_cons, IH. f_equal.
  destruct r, r', Hr as (? & ? & ?); simpl in *.
  unfold gdpr_view; simpl. congruence.
Qed.

Theorem gdpr_reads_three_columns df df' :
  Forall2 same_gdpr_cells df df' →
  generate_gdpr_yaml df = generate_gdpr_yaml df'.
Proof.
  intros Hsame%gdpr_view_eq.
  assert (∀ d, generate_gdpr_yaml (gdpr_view <$> d) = generate_gdpr_yaml d)
    as Hmap by (intros d; by apply generate_gdpr_yaml_fmap).
  by rewrite <- (Hmap df), <- (Hmap df'), Hsame.
Qed.

Section main_facts.
Context {file : Type} `{Countable file} (resolve : string → file).
Context (parse : string → option DataFrame) (dump_block dump : pyval → string).
Context (writable : file → bool).
Local Abbreviation run := (main resolve parse dump_block dump writable).

(** [main] ends without an exception exactly when the input file can be
    read and parsed, every grouped row has a column name and a data type,
    the [.str] accessor is not refused, and both output files can be
    opened for writing. *)
Theorem main_succeeds_iff fs csv_file_path metadata_yaml_path gdpr_yaml_path :
  (run fs csv_file_path metadata_yaml_path gdpr_yaml_path).2 = None ↔
  ∃ text df,
    fs !! resolve csv_file_path = Some text ∧ parse text = Some df ∧
    named_and_typed df ∧ gdpr_columns_are_text df ∧
    writable (resolve metadata_yaml_path) = true ∧
    writable (resolve gdpr_yaml_path) = true.
Proof.
  unfold main, read_csv, save_yaml. split.
  - destruct (fs !! resolve csv_file_path) as [text|] eqn:Hcsv; [|done].
    destruct (parse text) as [df|] eqn:Hparse; [|done].
    destruct (generate_metadata_yaml df) as [metadata|e] eqn:Hdoc; [|done].
    destruct (generate_gdpr_yaml df) as [gdpr|e] eqn:Hgdpr; [|done].
    destruct (writable (resolve metadata_yaml_path)) eqn:Hm; [|done].
    destruct (writable (resolve gdpr_yaml_path)) eqn:Hg; [|done].
    intros _. exists text, df. split; [done|]. split; [done|].
    split; [|split; [by eapply generate_gdpr_yaml_Ok_text|done]].
    unfold generate_metadata_yaml in Hdoc.
    apply bind_Ok in Hdoc as (tables & Htables & _).
    by apply (process_source_Ok_named df tables).
  - intros (text & df & -> & -> & [metadata ->]%generate_metadata_yaml_total
            & [gdpr ->]%generate_gdpr_yaml_total & -> & ->).
    done.
Qed.

(** Both documents are built before anything is written: when [main]
    fails, no file has changed, unless it is the second write that failed;
    then the metadata file has been written and stays. *)
Theorem main_failure_leaves_files fs csv_file_path metadata_yaml_path gdpr_yaml_path err :
  (run fs csv_file_path metadata_yaml_path gdpr_yaml_path).2 = Some err →
  (run fs csv_file_path metadata_yaml_path gdpr_yaml_path).1 = fs ∨
  (err = WriteOSError ∧ writable (resolve gdpr_yaml_path) = false ∧
   ∃ text df metadata gdpr,
     fs !! resolve csv_file_path = Some text ∧ parse text = Some df ∧
     generate_metadata_yaml df = Ok metadata ∧
     generate_gdpr_yaml df = Ok gdpr ∧
     (run fs csv_file_path metadata_yaml_path gdpr_yaml_path).1 =
       <[resolve metadata_yaml_path := dump_block metadata]> fs).
Proof.
  unfold main, read_csv, save_yaml.
  destruct (fs !! resolve csv_file_path) as [text|] eqn:Hcsv; [|by left].
  destruct (parse text) as [df|] eqn:Hparse; [|by left].
  destruct (generate_metadata_yaml df) as [metadata|e] eqn:Hdoc; [|by left].
  destruct (generate_gdpr_yaml df) as [gdpr|e] eqn:Hgdpr; [|by left].
  destruct (writable (resolve metadata_yaml_path)) eqn:Hm; [|by left].
  destruct (writable (resolve gdpr_yaml_path)) eqn:Hg; [done|].
  intros [= <-]. right. split; [done|]. split; [done|].
  by exists text, df, metadata, gdpr.
Qed.

(** After a successful [main] the GDPR file holds the GDPR YAML, the
    metadata file the metadata YAML unless both paths name one file (the
    GDPR document is written last), and every other file is untouched. *)
Theorem main_success_writes_both fs csv_file_path metadata_yaml_path gdpr_yaml_path :
  (run fs csv_file_path metadata_yaml_path gdpr_yaml_path).2 = None →
  ∃ text df metadata gdpr,
    fs !! resolve csv_file_path = Some text ∧ parse text = Some df ∧
    generate_metadata_yaml df = Ok metadata ∧
    generate_gdpr_yaml df = Ok gdpr ∧
    let fs' := (run fs csv_file_path metadata_yaml_path gdpr_yaml_path).1 in
    fs' !! resolve gdpr_yaml_path = Some (dump gdpr) ∧
    (resolve metadata_yaml_path ≠ resolve gdpr_yaml_path →
     fs' !! resolve metadata_yaml_path = Some (dump_block metadata)) ∧
    ∀ other, other ≠ resolve metadata_yaml_path → other ≠ resolve gdpr_yaml_path →
             fs' !! other = fs !! other.
Proof.
  unfold main, read_csv, save_yaml.
  destruct (fs !! resolve csv_file_path) as [text|] eqn:Hcsv; [|done].
  destruct (parse text) as [df|] eqn:Hparse; [|done].
  destruct (generate_metadata_yaml df) as [metadata|e] eqn:Hdoc; [|done].
  destruct (generate_gdpr_yaml df) as [gdpr|e] eqn:Hgdpr; [|done].
  destruct (writable (resolve metadata_yaml_path)) eqn:Hm; [|done].
  destruct (writable (resolve gdpr_yaml_path)) eqn:Hg; [|done].
  intros _. exists text, df, metadata, gdpr; simpl.
  split; [done|]. split; [done|]. split; [done|]. split; [done|].
  split; [|split].
  - by rewrite lookup_insert_eq.
  - intros Hne. by rewrite lookup_insert_ne, lookup_insert_eq.
  - intros other ? ?. by rewrite !lookup_insert_ne.
Qed.
End main_facts.

End converter.

(** * The statements at work

    The sample frames are ASCII text, on which [str.lower] maps the letters
    A to Z to a to z and leaves every other character as it is. *)

Definition ascii_lower_char (c : ascii) : ascii :=
  let n := N_of_ascii c in
  if ((65 <=? n) && (n <=? 90))%N then ascii_of_N (n + 32) else c.

Fixpoint ascii_lower (s : string) : string :=
  match s with
  | EmptyString => EmptyString
  | String c s' => String (ascii_lower_char c) (ascii_lower s')
  end.

Lemma date_format_iff_not_missing_witness :
  ∃ t, process_table ascii_lower [customer_email; customer_birth] (sample_source ascii_lower) = Ok t ∧
  ∃ columns,
    item "columns" t = Some (PList columns) ∧
    Forall2 (λ row col,
      (∀ v, DATA_FORMAT row = Some v → item "date_format" col = Some (PStr v)) ∧
      (DATA_FORMAT row = None → item "date_format" col = None))
      [customer_email; customer_birth] columns.
Proof.
  eexists. split; [vm_compute; reflexivity|].
  apply ((date_format_iff_not_missing ascii_lower) _ (sample_source ascii_lower)). vm_compute. reflexivity.
Defined.

Lemma is_nullable_iff_Y_witness :
  ∃ t, process_table ascii_lower sample_frame (sample_source ascii_lower) = Ok t ∧
  ∃ columns,
    item "columns" t = Some (PList columns) ∧
    Forall2 (λ row col,
      (NULLABLE row = Some "Y" → item "is_nullable" col = Some (PBool true)) ∧
      (NULLABLE row ≠ Some "Y" → item "is_nullable" col = None))
      sample_frame columns.
Proof.
  eexists. split; [vm_compute; reflexivity|].
  apply ((is_nullable_iff_Y ascii_lower) _ (sample_source ascii_lower)). vm_compute. reflexivity.
Defined.

Lemma metadata_fixed_fields_witness :
  ∃ doc, generate_metadata_yaml ascii_lower sample_frame = Ok doc ∧
  ∃ tables,
    process_source ascii_lower sample_frame = Ok tables ∧
    doc = PDict [("version", PInt 2); ("name", PStr "dwh");
                 ("tables", PList tables)] ∧
    Forall (λ t,
      item "primary_key" t = Some (PList [PStr "unid"]) ∧
      item "cdc_column" t = Some (PStr "dml_flag") ∧
      item "cdc_type" t = Some (PStr "soft")) tables.
Proof.
  eexists. split; [vm_compute; reflexivity|].
  apply ((metadata_fixed_fields ascii_lower) sample_frame). vm_compute. reflexivity.
Defined.

Lemma tables_in_key_order_witness :
  ∃ tables, process_source ascii_lower sample_frame = Ok tables ∧
  ∃ keys : list group_key,
    StronglySorted (strict key_le) keys ∧
    (∀ k, k ∈ keys ↔ ∃ row, row ∈ sample_frame ∧ by_file_and_table row = Some k) ∧
    Forall2 (λ k t,
      item "name" t = Some (PStr k.2) ∧
      ∃ columns,
        item "columns" t = Some (PList columns) ∧
        Forall2 (λ row col, column_of_row ascii_lower row = Ok col)
                (filter (λ row, by_file_and_table row = Some k) sample_frame)
                columns)
      keys tables.
Proof.
  eexists. split; [vm_compute; reflexivity|].
  apply ((tables_in_key_order ascii_lower) sample_frame). vm_compute. reflexivity.
Defined.

Lemma shared_source_descriptor_witness :
  ∃ ti tj,
    process_source ascii_lower shared_file_frame = Ok [ti; tj] ∧
    ∃ source, item "source" ti = Some source ∧ item "source" tj = Some source.
Proof.
  eexists _, _. split; [vm_compute; reflexivity|].
  eapply ((shared_source_descriptor ascii_lower) shared_file_frame _ 0 1 _ _ _ _
            orders_id order_items_qty);
    first [vm_compute; reflexivity
          |apply (bool_decide_unpack _); vm_compute; exact I].
Defined.

(** C1 as stated fails: CUSTOMER occurs with two file names, so the
    document has two table definitions for one distinct table name. *)
Lemma tables_not_one_per_table_name :
  ∃ customer1 customer2,
    process_source ascii_lower two_files_frame = Ok [customer1; customer2] ∧
    item "name" customer1 = Some (PStr "CUSTOMER") ∧
    item "name" customer2 = Some (PStr "CUSTOMER") ∧
    distinct_table_names two_files_frame = ["CUSTOMER"] ∧
    length [customer1; customer2] ≠ length (distinct_table_names two_files_frame).
Proof.
  eexists _, _. split; [vm_compute; reflexivity|].
  split; [done|]. split; [done|]. split; [by vm_compute|]. by vm_compute.
Qed.

Lemma tables_one_per_group_key_witness :
  ∃ tables, process_source ascii_lower sample_frame = Ok tables ∧
    one_file_per_table sample_frame ∧
    length tables = length (distinct_group_keys sample_frame) ∧
    length tables = length (distinct_table_names sample_frame).
Proof.
  eexists. split; [vm_compute; reflexivity|].
  assert (one_file_per_table sample_frame) as Hone
    by (apply (bool_decide_unpack _); vm_compute; exact I).
  split; [exact Hone|].
  destruct ((tables_one_per_group_key ascii_lower) sample_frame _ eq_refl) as [Hkeys Hnames].
  split; [exact Hkeys|exact (Hnames Hone)].
Defined.

Lemma column_definitions_of_rows_witness :
  ∃ t, process_table ascii_lower sample_frame (sample_source ascii_lower) = Ok t ∧
  item "columns" t = Some (PList (columns_of t)) ∧
  Forall2 (λ row col,
    item "name" col = PStr ∘ ascii_lower <$> COLUMN_NAME row ∧
    item "data_type" col = PStr ∘ map_data_type <$> DATA_TYPE row ∧
    (∃ ty, ty ∈ canonical_types ∧ item "data_type" col = Some (PStr ty)) ∧
    ∃ d, col = PDict d ∧
         d.*1 = ["name"; "data_type"]
                ++ (if DATA_FORMAT row is Some _ then ["date_format"] else [])
                ++ (if decide (NULLABLE row = Some "Y") then ["is_nullable"] else []))
    sample_frame (columns_of t).
Proof.
  eexists. split; [vm_compute; reflexivity|].
  apply ((column_definitions_of_rows ascii_lower) _ (sample_source ascii_lower)). vm_compute. reflexivity.
Defined.

Lemma generate_metadata_yaml_Raise_witness :
  generate_metadata_yaml ascii_lower [customer_email; unnamed_column] = Raise AttributeError ∧
  ∃ row,
    row ∈ [customer_email; unnamed_column] ∧
    is_Some (by_file_and_table row) ∧
    ((COLUMN_NAME row = None ∧ AttributeError = AttributeError) ∨
     (is_Some (COLUMN_NAME row) ∧ DATA_TYPE row = None ∧ AttributeError = TypeError)).
Proof.
  split; [by vm_compute|].
  apply (generate_metadata_yaml_Raise ascii_lower). by vm_compute.
Defined.

Lemma every_keyed_row_in_one_table_witness :
  ∃ tables, process_source ascii_lower sample_frame = Ok tables ∧
  sum_list_with (λ t, length (columns_of t)) tables =
    length (filter (λ row, is_Some (by_file_and_table row)) sample_frame) ∧
  Forall (λ t, columns_of t ≠ []) tables.
Proof.
  eexists. split; [vm_compute; reflexivity|].
  apply ((every_keyed_row_in_one_table ascii_lower) sample_frame). vm_compute. reflexivity.
Defined.

Lemma source_of_first_group_with_key_witness :
  ∃ tables t,
    process_source ascii_lower clash_frame = Ok tables ∧ tables !! 1 = Some t ∧
  ∃ j k',
    j ≤ 1 ∧
    group_keys key_le by_file_and_table clash_frame !! j = Some k' ∧
    group_source_key k' = group_source_key ("export_eu", ".", "CSV", "EU_SALES") ∧
    (∀ j' k'', group_keys key_le by_file_and_table clash_frame !! j' = Some k'' →
               j' < j →
               group_source_key k'' ≠ group_source_key ("export_eu", ".", "CSV", "EU_SALES")) ∧
    item "source" t = Some (group_source_data ascii_lower k').
Proof.
  eexists _, _. split; [vm_compute; reflexivity|]. split; [vm_compute; reflexivity|].
  eapply ((source_of_first_group_with_key ascii_lower) clash_frame _ 1);
    vm_compute; reflexivity.
Defined.

Lemma source_descriptor_fixed_fields_witness :
  ∃ tables, process_source ascii_lower sample_frame = Ok tables ∧
  Forall (λ t, ∃ source params file_pattern decimal_separator format,
    item "source" t = Some source ∧
    item "load_type" source = Some (PStr "delta") ∧
    item "file_pattern" source = Some (PStr file_pattern) ∧
    item "partition_pattern" source = Some (PStr "(\d+(?:\.\d+)?)_(?:\d+\D+)$") ∧
    item "params" source = Some params ∧
    item "decimal_separator" params = Some (PStr decimal_separator) ∧
    item "format" params = Some (PStr format) ∧
    ∃ row, row ∈ sample_frame ∧ FILE_NAME row = Some file_pattern ∧
           DECIMAL_SEPARATOR row = Some decimal_separator ∧
           ascii_lower <$> FILE_TYPE row = Some format) tables.
Proof.
  eexists. split; [vm_compute; reflexivity|].
  apply ((source_descriptor_fixed_fields ascii_lower) sample_frame). vm_compute. reflexivity.
Defined.

Lemma row_order_only_permutes_columns_witness :
  ∃ tables, process_source ascii_lower sample_frame = Ok tables ∧
  ∃ tables',
    process_source ascii_lower (reverse sample_frame) = Ok tables' ∧
    Forall2 (λ t t',
      item "name" t = item "name" t' ∧
      item "source" t = item "source" t' ∧
      columns_of t ≡ₚ columns_of t') tables tables'.
Proof.
  eexists. split; [vm_compute; reflexivity|].
  apply ((row_order_only_permutes_columns ascii_lower) sample_frame).
  - symmetry. apply reverse_Permutation.
  - vm_compute. reflexivity.
Defined.

(** The GDPR document depends on table_name, COLUMN_NAME and GDPR_FLAG
    only; in particular missing file names or data types never make it
    fail or change. *)
Lemma metadata_ignores_gdpr_flag_witness :
  Forall2 same_text_cells sample_frame (without_flag <$> sample_frame) ∧
  generate_metadata_yaml ascii_lower sample_frame =
  generate_metadata_yaml ascii_lower (without_flag <$> sample_frame).
Proof.
  assert (Forall2 same_text_cells sample_frame (without_flag <$> sample_frame))
    as Hsame by (repeat constructor).
  split; [exact Hsame|]. exact ((metadata_ignores_gdpr_flag ascii_lower) _ _ Hsame).
Defined.

Lemma source_of_own_group_witness :
  ∃ tables t,
    process_source ascii_lower sample_frame = Ok tables ∧ tables !! 0 = Some t ∧
    item "source" t = Some (group_source_data ascii_lower ("account.csv", ",", "CSV", "ACCOUNT")).
Proof.
  eexists _, _. split; [vm_compute; reflexivity|]. split; [vm_compute; reflexivity|].
  eapply ((source_of_own_group ascii_lower) sample_frame _ 0); [|vm_compute; reflexivity..].
  intros k1 k2 H1%list_elem_of_In H2%list_elem_of_In Hkey.
  vm_compute in H1, H2.
  destruct H1 as [<-|[<-|[]]], H2 as [<-|[<-|[]]];
    first [reflexivity | vm_compute in Hkey; discriminate Hkey].
Defined.


(** The documented example: column EMAIL of table CUSTOMER. *)
Example column_of_customer_email :
  column_of_row ascii_lower customer_email =
  Ok (PDict [("name", PStr "email"); ("data_type", PStr "string");
             ("is_nullable", PBool true)]).
Proof. by vm_compute. Qed.

(** The documented example: flagged column EMAIL of table CUSTOMER. *)
Example gdpr_customer_email :
  generate_gdpr_yaml ascii_lower sample_frame =
  Ok (PList [PDict [("name", PStr "CUSTOMER");
                    ("personal_data", PDict [("hash", PList [PStr "email"])])]]).
Proof. by vm_compute. Qed.

(** No column name at all and a flagged row: the [.str] accessor raises. *)
Example gdpr_unnamed_flagged :
  generate_gdpr_yaml ascii_lower [unnamed_flagged] = Raise AttributeError.
Proof. by vm_compute. Qed.

Lemma gdpr_entries_of_flagged_tables_witness :
  ∃ doc, generate_gdpr_yaml ascii_lower sample_frame = Ok doc ∧
  ∃ names : list string,
    StronglySorted (strict String.le) names ∧
    (∀ name, name ∈ names ↔
       ∃ row, row ∈ sample_frame ∧ table_name row = Some name ∧
              GDPR_FLAG row = true) ∧
    doc =
    PList ((λ name,
              PDict [("name", PStr name);
                     ("personal_data",
                      PDict [("hash",
                        PList ((λ row, cell (ascii_lower <$> COLUMN_NAME row)) <$>
                               filter (λ row, table_name row = Some name ∧
                                              GDPR_FLAG row = true) sample_frame))])])
           <$> names).
Proof.
  eexists. split; [vm_compute; reflexivity|].
  apply (gdpr_entries_of_flagged_tables ascii_lower sample_frame).
  vm_compute. reflexivity.
Defined.


Lemma every_flagged_row_in_one_entry_witness :
  ∃ doc, generate_gdpr_yaml ascii_lower sample_frame = Ok doc ∧
  sum_list_with (λ e, length (hash_of e)) (elements doc) =
    length (filter (λ row, GDPR_FLAG row = true ∧ is_Some (table_name row))
                   sample_frame) ∧
  Forall (λ e, hash_of e ≠ []) (elements doc).
Proof.
  eexists. split; [vm_compute; reflexivity|].
  apply (every_flagged_row_in_one_entry ascii_lower sample_frame).
  vm_compute. reflexivity.
Defined.

Lemma gdpr_reads_three_columns_witness :
  Forall2 same_gdpr_cells sample_frame (gdpr_view <$> sample_frame) ∧
  generate_gdpr_yaml ascii_lower sample_frame =
  generate_gdpr_yaml ascii_lower (gdpr_view <$> sample_frame).
Proof.
  assert (Forall2 same_gdpr_cells sample_frame (gdpr_view <$> sample_frame))
    as Hsame by (repeat constructor).
  split; [exact Hsame|]. exact (gdpr_reads_three_columns ascii_lower _ _ Hsame).
Defined.

Lemma main_failure_leaves_files_witness :
  (main ascii_lower sample_resolve sample_parse sample_dump_block sample_dump
     only_metadata_writable
     sample_files "metadata.csv" "metadata.yaml" "gdpr.yaml").2 = Some WriteOSError ∧
  ((main ascii_lower sample_resolve sample_parse sample_dump_block sample_dump
      only_metadata_writable
      sample_files "metadata.csv" "metadata.yaml" "gdpr.yaml").1 = sample_files ∨
   (WriteOSError = WriteOSError ∧
    only_metadata_writable (sample_resolve "gdpr.yaml") = false ∧
    ∃ text df metadata gdpr,
      sample_files !! sample_resolve "metadata.csv" = Some text ∧
      sample_parse text = Some df ∧
      generate_metadata_yaml ascii_lower df = Ok metadata ∧
      generate_gdpr_yaml ascii_lower df = Ok gdpr ∧
      (main ascii_lower sample_resolve sample_parse sample_dump_block sample_dump
         only_metadata_writable
         sample_files "metadata.csv" "metadata.yaml" "gdpr.yaml").1 =
        <[sample_resolve "metadata.yaml" := sample_dump_block metadata]> sample_files)).
Proof.
  split; [by vm_compute|].
  apply (main_failure_leaves_files ascii_lower). by vm_compute.
Defined.

Lemma main_success_writes_both_witness :
  (main ascii_lower sample_resolve sample_parse sample_dump_block sample_dump
     (λ _, true)
     sample_files "metadata.csv" "metadata.yaml" "gdpr.yaml").2 = None ∧
  ∃ text df metadata gdpr,
    sample_files !! sample_resolve "metadata.csv" = Some text ∧
    sample_parse text = Some df ∧
    generate_metadata_yaml ascii_lower df = Ok metadata ∧
    generate_gdpr_yaml ascii_lower df = Ok gdpr ∧
    let fs' := (main ascii_lower sample_resolve sample_parse sample_dump_block
                  sample_dump (λ _, true)
                  sample_files "metadata.csv" "metadata.yaml" "gdpr.yaml").1 in
    fs' !! sample_resolve "gdpr.yaml" = Some (sample_dump gdpr) ∧
    (sample_resolve "metadata.yaml" ≠ sample_resolve "gdpr.yaml" →
     fs' !! sample_resolve "metadata.yaml" = Some (sample_dump_block metadata)) ∧
    ∀ other, other ≠ sample_resolve "metadata.yaml" →
             other ≠ sample_resolve "gdpr.yaml" →
             fs' !! other = sample_files !! other.
Proof.
  split; [by vm_compute|].
  apply (main_success_writes_both ascii_lower). by vm_compute.
Defined.
